(** * ngbuild: the GitHub integration (integrations/github/github.go)

    A shallow embedding of the pull-request tracker, the build ledger, the
    OAuth callback and the webhook registration of [github.go], and the
    properties of them that the specification states.

    Conventions of the embedding.
    - The handlers run one at a time: the read/write lock [g.m] and the
      condition variable are not modelled, only the order of the effects
      inside one handler.
    - The [Github] struct is a record that is threaded through the handlers;
      the build engine behind [core.App] is an abstract state [E] with the
      operations of the class [core.App].
    - Every call that leaves the process (provider API, build engine, cache,
      condition variable) is appended to [calls]; log lines go to [logs],
      each with its level and its format string.
    - A nil dereference is the outcome [Panic], which keeps the state reached
      when the handler stopped.
    - Pull-request payloads are well formed: every pointer field the handlers
      dereference is present, except [event.PullRequest], which the code
      tests against nil. *)

From Stdlib Require Import ZArith String List Bool Lia.
From stdpp Require Import base option list gmap strings pretty.

Local Open Scope string_scope.
Local Open Scope list_scope.
Local Open Scope Z_scope.

(** Go's [error] values, seen through [err.Error()]. *)
Definition error : Type := string.

(** [strings.Contains]. *)
Fixpoint Contains (s substr : string) : bool :=
  String.prefix substr s ||
  match s with
  | EmptyString => false
  | String _ s' => Contains s' substr
  end.

(** [strconv.Itoa] and [fmt.Sprintf "%d"]. *)
Definition Itoa (n : Z) : string := pretty n.

(** ** The go-github types the handlers read *)
Module github.

Record User := { Login : string }.

Record Repository := {
  Owner : User;
  Name : string;
  SSHURL : string
}.

Record PullRequestBranch := {
  Ref : string;
  SHA : string;
  Repo : Repository
}.

(** The field [User] of the Go struct is [User'] here: the name is taken by
    the type. *)
Record PullRequest := {
  ID : Z;
  Number : Z;
  Title : string;
  HTMLURL : string;
  Head : PullRequestBranch;
  Base : PullRequestBranch;
  User' : User
}.

(** [event.PullRequest] is a pointer that may be nil. *)
Record PullRequestEvent := {
  Action : string;
  PullRequest' : option PullRequest
}.

(** [github.Hook] as [setupHooks] fills it; [Config] holds the two keys
    ["url"] and ["content_type"]. *)
Record Hook := {
  HookName : string;
  Active : bool;
  Config : gmap string string;
  Events : list string
}.

End github.

(** ** The OAuth2 configuration, the token and the authenticated client *)
Module oauth2.

Record Token := { AccessToken : string }.

(** [oauth2.Config] as [getOauthConfig] fills it; the endpoint is always
    GitHub's. *)
Record Config := {
  ClientID : string;
  ClientSecret : string;
  Scopes : list string
}.

End oauth2.

(** [github.NewClient] over the token source that an OAuth2 configuration
    makes of a token: the client is determined by the two. *)
Record Client := NewClient {
  ClientConfig : oauth2.Config;
  ClientToken : oauth2.Token
}.

(** ** The build engine, package [core] *)
Module core.

(** Modelled from the spec: [core.BuildConfig] is declared outside
    [github.go]; the fields are the ones [buildPullRequest] assigns, and
    the metadata tags are a string map written by [SetMetadata] and read
    by [GetMetadata]. *)
Record BuildConfig := {
  Title : string;
  URL : string;
  HeadRepo : string;
  HeadBranch : string;
  HeadHash : string;
  BaseRepo : string;
  BaseBranch : string;
  BaseHash : string;
  Group : string;
  metadata : gmap string string
}.

Definition NewBuildConfig : BuildConfig :=
  {| Title := ""; URL := ""; HeadRepo := ""; HeadBranch := "";
     HeadHash := ""; BaseRepo := ""; BaseBranch := ""; BaseHash := "";
     Group := ""; metadata := ∅ |}.

Definition SetMetadata (key value : string) (c : BuildConfig) : BuildConfig :=
  let 'Build_BuildConfig title url headRepo headBranch headHash
                           baseRepo baseBranch baseHash group tags := c in
  Build_BuildConfig title url headRepo headBranch headHash
                    baseRepo baseBranch baseHash group (<[key := value]> tags).

Definition GetMetadata (key : string) (c : BuildConfig) : string :=
  default "" (metadata c !! key).

(** Modelled from the spec: a [core.Build] handle exposes [Token()] and
    [Config()]; [Stop()], [Ref()] and [Unref()] act on the engine. *)
Record Build := {
  Token : string;
  Config : BuildConfig
}.

(** Modelled from the spec: the contract of the build engine consumed
    through the interfaces [core.App] and [core.Build]
    ([submit(group, buildConfig) -> token] or failure,
    [lookup(token) -> handle] or failure, and the handle's [stop],
    [ref] and [unref]), over an engine state [E]. *)
Class App (E : Type) := {
  NewBuild : string → BuildConfig → E → (string * option error) * E;
  GetBuild : string → E → option Build * option error;
  Stop : Build → E → E;
  Ref : Build → E → E;
  Unref : Build → E → E
}.

End core.

(** ** The integration's own types *)

Record pullRequestStatus := {
  pull : github.PullRequest;
  currentBuild : string;
  mergeOnPass : bool
}.

Record githubConfig := {
  ClientID : string;
  ClientSecret : string;
  Owner : string;
  Repo : string;
  IgnoredBranches : list string;
  PublicKey : string;
  BuildBranches : list string;
  CancelOnNewCommit : bool;
  MergeOnPass : bool;
  MergeOnPassAuthWords : list string
}.

(** [app] is [app.Name()]; the state behind the [core.App] value is the
    engine state of the world. *)
Record githubApp := {
  app : string;
  config : githubConfig
}.

Record Github := {
  globalConfig : githubConfig;
  client : option Client;
  trackedPullRequests : gmap string pullRequestStatus;
  trackedBuilds : list core.Build
}.

(** ** Effects *)

Inductive Call :=
| CallIsCollaborator (owner repo user : string)
| CallNewBuild (group : string) (cfg : core.BuildConfig)
| CallGetBuild (token : string)
| CallStop (b : core.Build)
| CallRef (b : core.Build)
| CallUnref (b : core.Build)
| CallExchange (code : string)
| CallStoreCache (key value : string)
| CallBroadcast
| CallReposGet (owner repo : string)
| CallCreateHook (owner repo : string) (hook : github.Hook).

Inductive Level := Info | Warn | Crit.

(** The answers of the outside world that do not depend on the engine:
    the provider API behind [g.client], the OAuth token endpoint and the
    address of the HTTP server. *)
Record Remote := {
  IsCollaborator : Client → string → string → string → bool * option error;
  Exchange : oauth2.Config → string → oauth2.Token + error;
  ReposGet : Client → string → string → option error;
  CreateHook : Client → string → string → github.Hook → option error;
  GetHTTPServerURL : string
}.

Record World (E : Type) := mkWorld {
  g : Github;
  eng : E;
  cache : gmap string string;
  calls : list Call;
  logs : list (Level * string)
}.
Arguments mkWorld {E}.
Arguments g {E}.
Arguments eng {E}.
Arguments cache {E}.
Arguments calls {E}.
Arguments logs {E}.

Inductive Outcome (E A : Type) :=
| Ret (a : A) (w : World E)
| Panic (w : World E).
Arguments Ret {E A}.
Arguments Panic {E A}.

Definition M (E A : Type) : Type := World E → Outcome E A.

Definition world_of {E A} (o : Outcome E A) : World E :=
  match o with Ret _ w => w | Panic w => w end.

Definition returns {E A} (o : Outcome E A) : bool :=
  match o with Ret _ _ => true | Panic _ => false end.

Definition ret {E A} (a : A) : M E A := λ w, Ret a w.

Definition bind {E A B} (m : M E A) (k : A → M E B) : M E B :=
  λ w, match m w with
       | Ret a w' => k a w'
       | Panic w' => Panic w'
       end.

Definition panic {E A} : M E A := λ w, Panic w.

Declare Scope go_scope.
Delimit Scope go_scope with go.
Notation "x <- m ;; k" := (bind m (λ x, k))
  (at level 100, m at next level, right associativity) : go_scope.
Notation "m ;;; k" := (bind m (λ _, k))
  (at level 100, right associativity) : go_scope.
Local Open Scope go_scope.

Section Handlers.
Context {E : Type} `{!core.App E}.
Variable net : Remote.

(** [oauth2State] is computed once when the process starts (uid, pid and
    start time); it is a parameter here. *)
Variable oauth2State : string.

Definition getG : M E Github := λ w, Ret (g w) w.

Definition setG (g' : Github) : M E unit :=
  λ w, Ret tt (mkWorld g' (eng w) (cache w) (calls w) (logs w)).

Definition getEng : M E E := λ w, Ret (eng w) w.

Definition setEng (e : E) : M E unit :=
  λ w, Ret tt (mkWorld (g w) e (cache w) (calls w) (logs w)).

Definition call (c : Call) : M E unit :=
  λ w, Ret tt (mkWorld (g w) (eng w) (cache w) (calls w ++ [c]) (logs w)).

Definition logf (l : Level) (str : string) : M E unit :=
  λ w, Ret tt (mkWorld (g w) (eng w) (cache w) (calls w) (logs w ++ [(l, str)])).

Definition loginfof := logf Info.
Definition logwarnf := logf Warn.
Definition logcritf := logf Crit.

Definition setTrackedBuilds (l : list core.Build) : M E unit :=
  gh <- getG ;;
  setG {| globalConfig := globalConfig gh; client := client gh;
          trackedPullRequests := trackedPullRequests gh;
          trackedBuilds := l |}.

Definition setTrackedPullRequests (m : gmap string pullRequestStatus) : M E unit :=
  gh <- getG ;;
  setG {| globalConfig := globalConfig gh; client := client gh;
          trackedPullRequests := m;
          trackedBuilds := trackedBuilds gh |}.

Definition setClientField (c : option Client) : M E unit :=
  gh <- getG ;;
  setG {| globalConfig := globalConfig gh; client := c;
          trackedPullRequests := trackedPullRequests gh;
          trackedBuilds := trackedBuilds gh |}.

(** Methods of a [core.Build] handle that change the engine. *)
Definition buildStop (b : core.Build) : M E unit :=
  call (CallStop b) ;;; e <- getEng ;; setEng (core.Stop b e).

Definition buildRef (b : core.Build) : M E unit :=
  call (CallRef b) ;;; e <- getEng ;; setEng (core.Ref b e).

Definition buildUnref (b : core.Build) : M E unit :=
  call (CallUnref b) ;;; e <- getEng ;; setEng (core.Unref b e).

(** [app.app.GetBuild] and [app.app.NewBuild]. *)
Definition appGetBuild (token : string) : M E (option core.Build * option error) :=
  call (CallGetBuild token) ;;; e <- getEng ;; ret (core.GetBuild token e).

Definition appNewBuild (group : string) (cfg : core.BuildConfig)
  : M E (string * option error) :=
  call (CallNewBuild group cfg) ;;;
  e <- getEng ;;
  let '(r, e') := core.NewBuild group cfg e in
  setEng e' ;;; ret r.

(** *** The build ledger *)

(** The loop of [trackBuild]: is there a tracked build with this token? *)
Fixpoint hasToken (token : string) (l : list core.Build) : bool :=
  match l with
  | [] => false
  | trackedBuild :: l' =>
      if String.eqb (core.Token trackedBuild) token then true
      else hasToken token l'
  end.

Definition trackBuild (build : core.Build) : M E unit :=
  gh <- getG ;;
  if hasToken (core.Token build) (trackedBuilds gh) then ret tt
  else
    buildRef build ;;;
    setTrackedBuilds (trackedBuilds gh ++ [build]).

(** The loop of [untrackBuild]: the index of the first tracked build with
    this token, or [-1]; [i] is the index of the head of [l]. *)
Fixpoint findBuildIndex (token : string) (i : Z) (l : list core.Build) : Z :=
  match l with
  | [] => -1
  | trackedBuild :: l' =>
      if String.eqb (core.Token trackedBuild) token then i
      else findBuildIndex token (i + 1) l'
  end.

Definition untrackBuild (build : core.Build) : M E unit :=
  gh <- getG ;;
  let buildIndex := findBuildIndex (core.Token build) 0 (trackedBuilds gh) in
  if buildIndex <? 0 then ret tt
  else
    match trackedBuilds gh !! Z.to_nat buildIndex with
    | None => panic
    | Some tracked =>
        buildUnref tracked ;;;
        setTrackedBuilds (take (Z.to_nat buildIndex) (trackedBuilds gh) ++
                          drop (Z.to_nat (buildIndex + 1)) (trackedBuilds gh))
    end.

(** *** The OAuth callback *)

Definition StoreCache (key value : string) : M E unit :=
  call (CallStoreCache key value) ;;;
  λ w, Ret tt (mkWorld (g w) (eng w) (<[key := value]> (cache w)) (calls w) (logs w)).

Definition getOauthConfig (gh : Github) : oauth2.Config :=
  {| oauth2.ClientID := ClientID (globalConfig gh);
     oauth2.ClientSecret := ClientSecret (globalConfig gh);
     oauth2.Scopes := ["repo"] |}.

Definition setClient (token : oauth2.Token) : M E unit :=
  gh <- getG ;;
  setClientField (Some (NewClient (getOauthConfig gh) token)) ;;;
  call CallBroadcast.

(** [state] and [code] are the query parameters of the request; the result
    is the body written to the response. *)
Definition handleGithubAuth (state code : string) : M E string :=
  if negb (String.eqb state oauth2State) then
    ret "OAuth2 state was incorrect, something bad happened between Github and us"
  else
    gh <- getG ;;
    let cfg := getOauthConfig gh in
    call (CallExchange code) ;;;
    match Exchange net cfg code with
    | inr err =>
        ret ("Error exchanging OAuth code, something bad happened between Github and us: " +:+ err)
    | inl token =>
        StoreCache "github:token" (oauth2.AccessToken token) ;;;
        setClient token ;;;
        ret "Thanks! you can close this tab now."
    end.

(** *** Webhook registration *)

(** [g.client.] on a nil client is a nil dereference. *)
Definition theClient : M E Client :=
  gh <- getG ;;
  match client gh with
  | Some c => ret c
  | None => panic
  end.

Definition hookEvents : list string :=
  ["pull_request"; "delete"; "issue_comment"; "pull_request_review";
   "pull_request_review_event"; "push"; "status"].

Definition hookURL (appConfig : githubApp) : string :=
  GetHTTPServerURL net +:+ "/cb/github/hook/" +:+ app appConfig.

Definition theHook (appConfig : githubApp) : github.Hook :=
  {| github.HookName := "web";
     github.Active := true;
     github.Config := <["content_type" := "json"]> (<["url" := hookURL appConfig]> ∅);
     github.Events := hookEvents |}.

Definition setupHooks (appConfig : githubApp) : M E unit :=
  let cfg := config appConfig in
  c <- theClient ;;
  call (CallReposGet (Owner cfg) (Repo cfg)) ;;;
  match ReposGet net c (Owner cfg) (Repo cfg) with
  | Some _ =>
      logwarnf "(%s) Repository does not exist, owner=%s, repo=%s"
  | None =>
      call (CallCreateHook (Owner cfg) (Repo cfg) (theHook appConfig)) ;;;
      match CreateHook net c (Owner cfg) (Repo cfg) (theHook appConfig) with
      | Some err =>
          if negb (Contains err "Hook already exists") then
            logwarnf "Could not create webhook, owner=%s, repo=%s: %s"
          else ret tt
      | None => ret tt
      end
  end.

(** *** The pull-request tracker *)

(** The submission [buildPullRequest] builds from the pull request. *)
Definition pullBuildConfig (pull : github.PullRequest) : core.BuildConfig :=
  let pullID := Itoa (github.ID pull) in
  let headBranch := github.Ref (github.Head pull) in
  let headCloneURL := github.SSHURL (github.Repo (github.Head pull)) in
  let headCommit := github.SHA (github.Head pull) in
  let headOwner := github.Login (github.Owner (github.Repo (github.Head pull))) in
  let headRepo := github.Name (github.Repo (github.Head pull)) in
  let baseBranch := github.Ref (github.Base pull) in
  let baseCloneURL := github.SSHURL (github.Repo (github.Base pull)) in
  let baseOwner := github.Login (github.Owner (github.Repo (github.Base pull))) in
  let baseRepo := github.Name (github.Repo (github.Base pull)) in
  let baseCommit := github.SHA (github.Base pull) in
  let buildConfig :=
    {| core.Title := github.Title pull;
       core.URL := github.HTMLURL pull;
       core.HeadRepo := headCloneURL;
       core.HeadBranch := headBranch;
       core.HeadHash := headCommit;
       core.BaseRepo := baseCloneURL;
       core.BaseBranch := baseBranch;
       core.BaseHash := "";
       core.Group := pullID;
       core.metadata := core.metadata core.NewBuildConfig |} in
  core.SetMetadata "github:BaseRepo" baseRepo
    (core.SetMetadata "github:BaseOwner" baseOwner
    (core.SetMetadata "github:BaseHash" baseCommit
    (core.SetMetadata "github:HeadRepo" headRepo
    (core.SetMetadata "github:HeadOwner" headOwner
    (core.SetMetadata "github:HeadHash" headCommit
    (core.SetMetadata "github:PullNumber" (Itoa (github.Number pull))
    (core.SetMetadata "github:PullRequestID" pullID
    (core.SetMetadata "github:BuildType" "pullrequest" buildConfig)))))))).

Definition withCurrentBuild (status : pullRequestStatus) (token : string)
  : pullRequestStatus :=
  {| pull := pull status; currentBuild := token;
     mergeOnPass := mergeOnPass status |}.

(** The second half of [buildPullRequest], from the construction of the
    build configuration on: the part that the early return on an already
    built commit skips. *)
Definition startBuild (app : githubApp) (pull : github.PullRequest)
    (status : pullRequestStatus) : M E unit :=
  let pullID := Itoa (github.ID pull) in
  let buildConfig := pullBuildConfig pull in
  r <- appNewBuild (core.Group buildConfig) buildConfig ;;
  let '(buildToken, err) := r in
  match err with
  | Some _ => logcritf "Couldn't start build for %d"
  | None =>
      r <- appGetBuild buildToken ;;
      let '(build, err) := r in
      match err, build with
      | None, Some _ =>
          gh <- getG ;;
          setTrackedPullRequests
            (<[pullID := withCurrentBuild status buildToken]> (trackedPullRequests gh)) ;;;
          loginfof "started build: %s"
      | _, _ => logcritf "Couldn't get build for %d"
      end
  end.

Definition buildPullRequest (app : githubApp) (pull : github.PullRequest) : M E unit :=
  let pullID := Itoa (github.ID pull) in
  loginfof "Building pull request: %s" ;;;
  gh <- getG ;;
  status <- match trackedPullRequests gh !! pullID with
            | Some status => ret status
            | None =>
                let status := {| pull := pull; currentBuild := ""; mergeOnPass := false |} in
                setTrackedPullRequests (<[pullID := status]> (trackedPullRequests gh)) ;;;
                ret status
            end ;;
  r <- appGetBuild (currentBuild status) ;;
  match r.1 with
  | Some build =>
      if String.eqb (core.GetMetadata "github:HeadHash" (core.Config build))
                    (github.SHA (github.Head pull))
      then logwarnf "Already building/built this commit"
      else
        (if CancelOnNewCommit (config app) then buildStop build else ret tt) ;;;
        startBuild app pull status
  | None => startBuild app pull status
  end.

(** The loop of [trackPullRequest] over [app.config.IgnoredBranches]. *)
Fixpoint isIgnoredBranch (ref : string) (ignored : list string) : bool :=
  match ignored with
  | [] => false
  | branchIgnore :: rest =>
      if String.eqb branchIgnore ref then true else isIgnoredBranch ref rest
  end.

Definition trackPullRequest (app : githubApp) (event : github.PullRequestEvent)
  : M E unit :=
  match github.PullRequest' event with
  | None => logcritf "pull request is nil"
  | Some pull =>
      let pullID := Itoa (github.ID pull) in
      let owner := github.Login (github.Owner (github.Repo (github.Base pull))) in
      let repo := github.Name (github.Repo (github.Base pull)) in
      let user := github.Login (github.User' pull) in
      c <- theClient ;;
      call (CallIsCollaborator owner repo user) ;;;
      let '(isCollaborator, err) := IsCollaborator net c owner repo user in
      match err with
      | Some _ => logcritf "Couldn't check collaborator status on %s: %s"
      | None =>
          if negb isCollaborator then
            logwarnf "Ignoring pull request %s, non collaborator: %s"
          else if isIgnoredBranch (github.Ref (github.Base pull))
                                  (IgnoredBranches (config app)) then
            logwarnf "Ignoring pull request %s, is an ignored branch"
          else
            gh <- getG ;;
            setTrackedPullRequests
              (<[pullID := {| pull := pull; currentBuild := ""; mergeOnPass := false |}]>
                 (trackedPullRequests gh)) ;;;
            buildPullRequest app pull
      end
  end.

(** Called when there is a new commit on the pull request. *)
Definition updatePullRequest (app : githubApp) (event : github.PullRequestEvent)
  : M E unit :=
  match github.PullRequest' event with
  | None => panic
  | Some pull =>
      let pullID := Itoa (github.ID pull) in
      gh <- getG ;;
      match trackedPullRequests gh !! pullID with
      | None =>
          logwarnf "event on unknown/ignored pull request: %s" ;;;
          trackPullRequest app event
      | Some _ => buildPullRequest app pull
      end
  end.

Definition closedPullRequest (app : githubApp) (event : github.PullRequestEvent)
  : M E unit :=
  match github.PullRequest' event with
  | None => panic
  | Some pull =>
      let pullID := Itoa (github.ID pull) in
      gh <- getG ;;
      match trackedPullRequests gh !! pullID with
      | None => ret tt
      | Some status =>
          r <- appGetBuild (currentBuild status) ;;
          match r.1 with
          | Some build =>
              if CancelOnNewCommit (config app) then buildStop build else ret tt
          | None => ret tt
          end ;;;
          gh <- getG ;;
          setTrackedPullRequests (delete pullID (trackedPullRequests gh))
      end
  end.

End Handlers.

(** * The notions the properties are stated with *)

(** ** Observations on the trace of calls *)

Definition isNewBuild (c : Call) : bool :=
  match c with CallNewBuild _ _ => true | _ => false end.

Definition isStop (c : Call) : bool :=
  match c with CallStop _ => true | _ => false end.

Definition isBroadcast (c : Call) : bool :=
  match c with CallBroadcast => true | _ => false end.

(** How many builds were submitted, how many stops were requested and how
    many times the waiters were released, in a trace. *)
Definition submissions (cs : list Call) : nat := length (List.filter isNewBuild cs).
Definition stops (cs : list Call) : nat := length (List.filter isStop cs).
Definition broadcasts (cs : list Call) : nat := length (List.filter isBroadcast cs).

(** ** Events and worlds *)

(** A pull-request event with a payload. *)
Definition prEvent (action : string) (pull : github.PullRequest) : github.PullRequestEvent :=
  {| github.Action := action; github.PullRequest' := Some pull |}.

(** A synchronize event for a pull request, as the dispatcher hands it to
    the tracker. *)
Definition synchronize (pull : github.PullRequest) : github.PullRequestEvent :=
  {| github.Action := "synchronize"; github.PullRequest' := Some pull |}.

(** A closed event for a pull request. *)
Definition closed (pull : github.PullRequest) : github.PullRequestEvent :=
  {| github.Action := "closed"; github.PullRequest' := Some pull |}.

(** The world [w] with other tracked pull requests, and with another trace
    of calls. *)
Definition withTracked {E} (prs : gmap string pullRequestStatus) (w : World E) : World E :=
  mkWorld {| globalConfig := globalConfig (g w); client := client (g w);
             trackedPullRequests := prs;
             trackedBuilds := trackedBuilds (g w) |}
          (eng w) (cache w) (calls w) (logs w).

Definition withCalls {E} (cs : list Call) (w : World E) : World E :=
  mkWorld (g w) (eng w) (cache w) cs (logs w).

(** The entry of a pull request that [trackPullRequest] and
    [buildPullRequest] start from. *)
Definition freshStatus (pull : github.PullRequest) : pullRequestStatus :=
  {| pull := pull; currentBuild := ""; mergeOnPass := false |}.

(** ** The ledger and the session *)

(** A build token appears at most once among the tracked builds. *)
Definition ledger_ok (gh : Github) : Prop :=
  NoDup (map core.Token (trackedBuilds gh)).

(** The part of the integration's state that only the ledger and the OAuth
    callback write. *)
Definition session_same {E} (w w' : World E) : Prop :=
  trackedBuilds (g w') = trackedBuilds (g w) ∧
  client (g w') = client (g w) ∧
  globalConfig (g w') = globalConfig (g w) ∧
  cache w' = cache w.

(** A step of a handler that leaves that part alone, whatever world it
    runs in. *)
Definition preserves_session {E A} (m : M E A) : Prop :=
  ∀ w, session_same w (world_of (m w)).

(** ** The tracker *)

(** The answer of the collaborator query that [trackPullRequest] makes
    for [pull] through the client [c]. *)
Definition collaboratorAnswer (net : Remote) (c : Client) (pull : github.PullRequest)
  : bool * option error :=
  IsCollaborator net c
    (github.Login (github.Owner (github.Repo (github.Base pull))))
    (github.Name (github.Repo (github.Base pull)))
    (github.Login (github.User' pull)).

(** The three reasons to drop an event: the collaborator query fails, the
    author is not a collaborator on the base repository, the base branch
    is ignored by the application. *)
Definition gateRejects (net : Remote) (app : githubApp) (pull : github.PullRequest)
    (cl : option Client) : Prop :=
  (∃ c, cl = Some c ∧ (collaboratorAnswer net c pull).2 ≠ None) ∨
  (∃ c, cl = Some c ∧ (collaboratorAnswer net c pull).1 = false) ∨
  isIgnoredBranch (github.Ref (github.Base pull)) (IgnoredBranches (config app)) = true.

(** The engine state in which [buildPullRequest] submits: the state it was
    called in, after the stop of the build the entry cites when there is
    one and cancel-on-new-commit is set. *)
Definition engineAtSubmit {E} `{!core.App E} (app : githubApp) (status : pullRequestStatus)
    (e : E) : E :=
  match (core.GetBuild (currentBuild status) e).1 with
  | Some build => if CancelOnNewCommit (config app) then core.Stop build e else e
  | None => e
  end.

(** The entry cites a build of the head commit of [pull]. *)
Definition alreadyBuilt {E} `{!core.App E} (pull : github.PullRequest)
    (status : pullRequestStatus) (e : E) : bool :=
  match (core.GetBuild (currentBuild status) e).1 with
  | Some build =>
      String.eqb (core.GetMetadata "github:HeadHash" (core.Config build))
                 (github.SHA (github.Head pull))
  | None => false
  end.



(** ** The webhook *)

(** The event set as the specification lists it: pull request, delete,
    issue comment, pull-request review, push and status. *)
Definition specHookEvents : list string :=
  ["pull_request"; "delete"; "issue_comment"; "pull_request_review";
   "push"; "status"].

(** ** A reference build engine

    An engine that obeys the contract: it queues every submission under a
    token of its own (the newest build first), resolves exactly the tokens
    it handed out, and counts the stops and the references.  [refusing]
    makes every submission fail. *)
Module RefEngine.

(** Modelled from the spec: the build engine behind [core.App] is outside
    [github.go]; this is the smallest state that answers [submit],
    [lookup], [stop], [ref] and [unref] as the contract says. *)
Record t := {
  builds : list core.Build;
  stopped : list string;
  refs : gmap string Z;
  refusing : bool
}.

Definition empty : t :=
  {| builds := []; stopped := []; refs := ∅; refusing := false |}.

Fixpoint lookup (token : string) (l : list core.Build) : option core.Build :=
  match l with
  | [] => None
  | b :: l' => if String.eqb (core.Token b) token then Some b else lookup token l'
  end.

Definition NewBuild (group : string) (cfg : core.BuildConfig) (e : t)
  : (string * option error) * t :=
  if refusing e then (("", Some "build queue is closed"), e)
  else
    let token := group +:+ "/" +:+ Itoa (Z.of_nat (length (builds e))) in
    ((token, None),
     {| builds := {| core.Token := token; core.Config := cfg |} :: builds e;
        stopped := stopped e; refs := refs e; refusing := refusing e |}).

Definition GetBuild (token : string) (e : t) : option core.Build * option error :=
  match lookup token (builds e) with
  | Some b => (Some b, None)
  | None => (None, Some "no such build")
  end.

Definition Stop (b : core.Build) (e : t) : t :=
  {| builds := builds e; stopped := stopped e ++ [core.Token b];
     refs := refs e; refusing := refusing e |}.

Definition addRef (d : Z) (b : core.Build) (e : t) : t :=
  {| builds := builds e; stopped := stopped e;
     refs := <[core.Token b := default 0 (refs e !! core.Token b) + d]> (refs e);
     refusing := refusing e |}.

#[global] Instance engine : core.App t := {
  core.NewBuild := NewBuild;
  core.GetBuild := GetBuild;
  core.Stop := Stop;
  core.Ref := addRef 1;
  core.Unref := addRef (-1)
}.

End RefEngine.

(** ** A scenario: one application, one repository *)
Module Scenario.

Definition repository : github.Repository :=
  {| github.Owner := {| github.Login := "watchly" |};
     github.Name := "ngbuild";
     github.SSHURL := "git@github.com:watchly/ngbuild.git" |}.

(** A pull request of [alice] from the branch [spinner]. *)
Definition pr (id number : Z) (base head : string) : github.PullRequest :=
  {| github.ID := id;
     github.Number := number;
     github.Title := "Add a spinner";
     github.HTMLURL := "https://github.com/watchly/ngbuild/pull/" +:+ Itoa number;
     github.Head := {| github.Ref := "spinner"; github.SHA := head;
                       github.Repo := repository |};
     github.Base := {| github.Ref := base; github.SHA := "0a1b2c";
                       github.Repo := repository |};
     github.User' := {| github.Login := "alice" |} |}.

Definition pull_abc : github.PullRequest := pr 99002 42 "master" "abc123".
Definition pull_def : github.PullRequest := pr 99002 42 "master" "def456".
Definition pull_release : github.PullRequest := pr 99001 41 "release" "0ff1ce".

Definition settings (cancel merge : bool) : githubConfig :=
  {| ClientID := "Iv1.8a61f9b3a7aba766";
     ClientSecret := "shhh";
     Owner := "watchly";
     Repo := "ngbuild";
     IgnoredBranches := ["release"];
     PublicKey := "ssh-ed25519 AAAAC3Nza";
     BuildBranches := ["master"];
     CancelOnNewCommit := cancel;
     MergeOnPass := merge;
     MergeOnPassAuthWords := ["lgtm"] |}.

Definition ngbuild (cancel merge : bool) : githubApp :=
  {| app := "ngbuild"; config := settings cancel merge |}.

Definition token : oauth2.Token := {| oauth2.AccessToken := "gho_16C7e42F" |}.

(** The client that the token makes under these settings. *)
Definition apiClient : Client :=
  NewClient {| oauth2.ClientID := "Iv1.8a61f9b3a7aba766";
               oauth2.ClientSecret := "shhh";
               oauth2.Scopes := ["repo"] |}
            token.

(** The provider answers every collaborator query with [collaborator] and
    every hook request with [hook]; the token endpoint accepts the code
    ["4d2f"] only. *)
Definition provider (collaborator : bool * option error) (hook : option error)
  : Remote :=
  {| IsCollaborator := λ _ _ _ _, collaborator;
     Exchange := λ _ code,
       if String.eqb code "4d2f" then inl token else inr "bad_verification_code";
     ReposGet := λ _ _ _, None;
     CreateHook := λ _ _ _ _, hook;
     GetHTTPServerURL := "https://ci.example.org" |}.

(** The provider when the author is a collaborator and hooks can be
    created. *)
Definition github_ok : Remote := provider (true, None) None.

Definition nonce : string := "1000421517012345".

(** The integration after authentication, tracking [prs] and [blds]. *)
Definition world (prs : gmap string pullRequestStatus) (blds : list core.Build)
    (e : RefEngine.t) : World RefEngine.t :=
  mkWorld {| globalConfig := settings false false;
             client := Some apiClient;
             trackedPullRequests := prs;
             trackedBuilds := blds |}
          e ∅ [] [].

(** The integration before authentication. *)
Definition unauthenticated : World RefEngine.t :=
  mkWorld {| globalConfig := settings false false;
             client := None;
             trackedPullRequests := ∅;
             trackedBuilds := [] |}
          RefEngine.empty ∅ [] [].

(** The build the reference engine makes of the first submission for
    [pull]. *)
Definition firstBuild (pull : github.PullRequest) : core.Build :=
  {| core.Token := Itoa (github.ID pull) +:+ "/0";
     core.Config := pullBuildConfig pull |}.

(** The entry of [pull] once that build is recorded. *)
Definition building (pull : github.PullRequest) : pullRequestStatus :=
  {| pull := pull; currentBuild := core.Token (firstBuild pull);
     mergeOnPass := false |}.

(** The engine with that build queued; [refusing] tells whether it takes
    further submissions. *)
Definition queued (pull : github.PullRequest) (refusing : bool) : RefEngine.t :=
  {| RefEngine.builds := [firstBuild pull]; RefEngine.stopped := [];
     RefEngine.refs := ∅; RefEngine.refusing := refusing |}.

(** The integration tracking [pull] with its first build queued. *)
Definition tracking (pull : github.PullRequest) (refusing : bool)
  : World RefEngine.t :=
  world {[ Itoa (github.ID pull) := building pull ]} [] (queued pull refusing).

End Scenario.

(** * Further notions: the tracker and the ledger over several events *)

(** The collaborator query that [trackPullRequest] makes for a pull
    request. *)
Definition collaboratorQuery (pr : github.PullRequest) : Call :=
  CallIsCollaborator
    (github.Login (github.Owner (github.Repo (github.Base pr))))
    (github.Name (github.Repo (github.Base pr)))
    (github.Login (github.User' pr)).

(** The calls that the tracker may make for a pull request: the
    collaborator query, lookups and stops of builds, and the submission of
    the build of this pull request. *)
Definition isTrackerCall (pr : github.PullRequest) (c : Call) : Prop :=
  match c with
  | CallGetBuild _ | CallStop _ => True
  | CallIsCollaborator _ _ _ => c = collaboratorQuery pr
  | CallNewBuild group cfg =>
      group = Itoa (github.ID pr) ∧ cfg = pullBuildConfig pr
  | _ => False
  end.

(** What a handler run added to the trace: the calls are the tracker's, at
    most one submission and one stop among them, and no stop unless
    cancel-on-new-commit is set. *)
Definition trackerCalls (app : githubApp) (pr : github.PullRequest)
    (cs : list Call) : Prop :=
  Forall (isTrackerCall pr) cs ∧
  (submissions cs ≤ 1)%nat ∧ (stops cs ≤ 1)%nat ∧
  (CancelOnNewCommit (config app) = false → stops cs = 0%nat).

(** The world in which [trackPullRequest] hands over to
    [buildPullRequest]: the query is made and the entry of the pull request
    is fresh. *)
Definition admitted {E} (pr : github.PullRequest) (w : World E) : World E :=
  withCalls (calls w ++ [collaboratorQuery pr])
    (withTracked (<[Itoa (github.ID pr) := freshStatus pr]> (trackedPullRequests (g w))) w).

(** The world with one more log line. *)
Definition logged {E} (l : Level) (str : string) (w : World E) : World E :=
  mkWorld (g w) (eng w) (cache w) (calls w) (logs w ++ [(l, str)]).

(** The entry of a pull request in a world. *)
Definition entryOf {E} (pr : github.PullRequest) (w : World E) : option pullRequestStatus :=
  trackedPullRequests (g w) !! Itoa (github.ID pr).

(** What a handler added to the trace of [w] to reach [w']: calls of the
    tracker for the pull request, within the bounds of [trackerCalls]. *)
Definition trackerTrace {E} (app : githubApp) (pr : github.PullRequest)
    (w w' : World E) : Prop :=
  ∃ cs, calls w' = calls w ++ cs ∧ trackerCalls app pr cs.

(** What a handler cost the engine between [w] and [w']: at most one
    submission and at most one stop, and no stop without
    cancel-on-new-commit. *)
Definition engineCost {E} (app : githubApp) (w w' : World E) : Prop :=
  (submissions (calls w) ≤ submissions (calls w') ≤ S (submissions (calls w)))%nat ∧
  (stops (calls w) ≤ stops (calls w') ≤ S (stops (calls w)))%nat ∧
  (CancelOnNewCommit (config app) = false → stops (calls w') = stops (calls w)).

(** The entry's token resolves to a build of the head commit of the pull
    request: the condition under which [buildPullRequest] does nothing. *)
Definition settled {E} `{!core.App E} (pr : github.PullRequest) (w : World E) : Prop :=
  ∃ status build err,
    entryOf pr w = Some status ∧
    core.GetBuild (currentBuild status) (eng w) = (Some build, err) ∧
    core.GetMetadata "github:HeadHash" (core.Config build) = github.SHA (github.Head pr).

(** Handlers run one after the other on a list of deliveries; a panic ends
    the run. *)
Fixpoint deliver {E A} (handle : A → M E unit) (xs : list A) : M E unit :=
  match xs with
  | [] => ret tt
  | x :: rest => handle x ;;; deliver handle rest
  end.

(** ** The ledger over time *)

(** A use of the ledger. *)
Inductive ledgerOp :=
| Track (build : core.Build)
| Untrack (build : core.Build).

Definition ledgerStep {E} `{!core.App E} (op : ledgerOp) : M E unit :=
  match op with
  | Track build => trackBuild build
  | Untrack build => untrackBuild build
  end.

(** References taken minus references released on builds with a token, in
    a trace. *)
Fixpoint heldRefs (token : string) (cs : list Call) : Z :=
  match cs with
  | [] => 0
  | CallRef b :: cs' =>
      (if String.eqb (core.Token b) token then 1 else 0) + heldRefs token cs'
  | CallUnref b :: cs' =>
      (if String.eqb (core.Token b) token then -1 else 0) + heldRefs token cs'
  | _ :: cs' => heldRefs token cs'
  end.

(** The integration holds one reference on every tracked token and none on
    any other. *)
Definition balanced {E} (w : World E) : Prop :=
  ledger_ok (g w) ∧
  ∀ token, heldRefs token (calls w) =
           if hasToken token (trackedBuilds (g w)) then 1 else 0.

(** * The rest of the integration: providing, deploy keys, attaching

    The functions of [github.go] that the tracker does not need.  They
    print, ask the provider for more, read the application's configuration
    and wait for the client; a [Process] is the world with what that takes,
    and a run ends done, crashed (a nil dereference) or blocked in
    [clientHasSet.Wait()], which is as far as one handler is followed. *)

(** [github.Key] as [setupDeployKey] fills it; the field [Key] of the Go
    struct is [Key'] here. *)
Module keys.

Record Key := {
  Title : string;
  Key' : string;
  ReadOnly : bool
}.

End keys.

(** A repository as [Repositories.List] returns it and [init] prints it. *)
Record ListedRepository := {
  Listed : github.Repository;
  Private : bool;
  Fork : bool
}.

Inductive Signal := SignalBuildProvisioning | SignalBuildComplete.

(** The two listeners of the integration. *)
Inductive Listener := onBuildStarted | onBuildFinished.

Inductive Request :=
| CallCreateKey (owner repo : string) (key : keys.Key)
| CallReposList
| CallAppConfig (app section : string)
| CallListen (app : string) (signal : Signal) (listener : Listener)
| CallWait.

(** The answers of the outside world to these requests.  [DecodeConfig app
    section cfg] is what [app.Config(section, &cfg)] leaves in [cfg] for
    the application named [app]; [AuthCodeURL cfg state] is
    [cfg.AuthCodeURL(state, oauth2.AccessTypeOffline)]. *)
Record Host := {
  CreateKey : Client → string → string → keys.Key → option error;
  ReposList : Client → list ListedRepository * option error;
  AuthCodeURL : oauth2.Config → string → string;
  DecodeConfig : string → string → githubConfig → githubConfig
}.

Record Process (E : Type) := mkProcess {
  world : World E;
  apps : gmap string githubApp;
  printed : list string;
  requests : list Request
}.
Arguments mkProcess {E}.
Arguments world {E}.
Arguments apps {E}.
Arguments printed {E}.
Arguments requests {E}.

Inductive Result (E A : Type) :=
| Done (a : A) (p : Process E)
| Crashed (p : Process E)
| Blocked (p : Process E).
Arguments Done {E A}.
Arguments Crashed {E A}.
Arguments Blocked {E A}.

Definition P (E A : Type) : Type := Process E → Result E A.

Definition process_of {E A} (r : Result E A) : Process E :=
  match r with Done _ p => p | Crashed p => p | Blocked p => p end.

Definition yield {E A} (a : A) : P E A := λ p, Done a p.

Definition andThen {E A B} (m : P E A) (k : A → P E B) : P E B :=
  λ p, match m p with
       | Done a p' => k a p'
       | Crashed p' => Crashed p'
       | Blocked p' => Blocked p'
       end.

(** A handler of the tracker's monad, run inside the process. *)
Definition lift {E A} (m : M E A) : P E A :=
  λ p, match m (world p) with
       | Ret a w => Done a (mkProcess w (apps p) (printed p) (requests p))
       | Panic w => Crashed (mkProcess w (apps p) (printed p) (requests p))
       end.

Declare Scope process_scope.
Delimit Scope process_scope with process.
Notation "x <~ m ;; k" := (andThen m (λ x, k))
  (at level 100, m at next level, right associativity) : process_scope.
Notation "m ;;~ k" := (andThen m (λ _, k))
  (at level 100, right associativity) : process_scope.

(** The zero value of [githubConfig]. *)
Definition zeroConfig : githubConfig :=
  {| ClientID := ""; ClientSecret := ""; Owner := ""; Repo := "";
     IgnoredBranches := []; PublicKey := ""; BuildBranches := [];
     CancelOnNewCommit := false; MergeOnPass := false;
     MergeOnPassAuthWords := [] |}.

(** Modelled from the spec: [core.GetCache] is outside [github.go]; it
    reads what [core.StoreCache] stored under the key, and the empty string
    when nothing was stored. *)
Definition GetCache {E} (key : string) (w : World E) : string :=
  default "" (cache w !! key).

Section Attaching.
Local Open Scope process_scope.
Context {E : Type} `{!core.App E}.
Variable net : Remote.
Variable host : Host.
Variable oauth2State : string.

Definition IsProvider (source : string) : M E bool :=
  loginfof "Asked to provide for %s" ;;;
  ret (String.prefix "git@github.com:" source || String.eqb source "").

Definition println (line : string) : P E unit :=
  λ p, Done tt (mkProcess (world p) (apps p) (printed p ++ [line]) (requests p)).

Definition request (r : Request) : P E unit :=
  λ p, Done tt (mkProcess (world p) (apps p) (printed p) (requests p ++ [r])).

Definition getWorld : P E (World E) := λ p, Done (world p) p.

Definition setApp (name : string) (appConfig : githubApp) : P E unit :=
  λ p, Done tt (mkProcess (world p) (<[name := appConfig]> (apps p))
                          (printed p) (requests p)).

Definition setGlobalConfig (cfg : githubConfig) : M E unit :=
  gh <- getG ;;
  setG {| globalConfig := cfg; client := client gh;
          trackedPullRequests := trackedPullRequests gh;
          trackedBuilds := trackedBuilds gh |}.

(** [clientHasSet.Wait()]: the handler is followed no further. *)
Definition wait : P E unit :=
  λ p, Blocked (mkProcess (world p) (apps p) (printed p) (requests p ++ [CallWait])).

Definition acquireOauthToken : P E unit :=
  w <~ getWorld ;;
  let token := GetCache "github:token" w in
  if negb (String.eqb token "") then
    lift (setClient {| oauth2.AccessToken := token |})
  else
    println "" ;;~
    println "This app must be authenticated with github, please visit the following URL to authenticate this app" ;;~
    println (AuthCodeURL host (getOauthConfig (g w)) oauth2State) ;;~
    println "".

(** The line that [init] prints for a repository. *)
Definition repostr (repo : ListedRepository) : string :=
  let repostr :=
    github.Login (github.Owner (Listed repo)) +:+ "/" +:+
    github.Name (Listed repo) +:+ " " in
  let repostr := if Private repo then repostr +:+ "🔒" else repostr in
  let repostr := if Fork repo then repostr +:+ "🍴" else repostr in
  repostr.

(** The loop of [init] over the repositories. *)
Fixpoint printRepositories (repos : list ListedRepository) : P E unit :=
  match repos with
  | [] => yield tt
  | repo :: rest => println (repostr repo) ;;~ printRepositories rest
  end.

(** [init] for the application whose [Name()] is [name].  The loop on
    [g.client == nil] is followed to its first [Wait]. *)
Definition init (name : string) : P E unit :=
  w <~ getWorld ;;
  match client (g w) with
  | Some _ => yield tt
  | None =>
      request (CallAppConfig name "github") ;;~
      lift (setGlobalConfig (DecodeConfig host name "github" (globalConfig (g w)))) ;;~
      w <~ getWorld ;;
      if String.eqb (ClientID (globalConfig (g w))) "" ||
         String.eqb (ClientSecret (globalConfig (g w))) "" then
        println "Invalid github configuration, missing ClientID/ClientSecret"
      else
        acquireOauthToken ;;~
        w <~ getWorld ;;
        match client (g w) with
        | None =>
            println "Waiting for github authentication response..." ;;~
            wait
        | Some c =>
            println "Got authentication response" ;;~
            request CallReposList ;;~
            match ReposList host c with
            | (_, Some _) =>
                lift (logcritf "Couldn't get repos list after authenticating, something has gone wrong, clear cache and retry")
            | (repos, None) =>
                println "Found repositories:" ;;~
                printRepositories repos
            end
        end
  end.

Definition setupDeployKey (appConfig : githubApp) : P E (option error) :=
  let cfg := config appConfig in
  if String.eqb (PublicKey cfg) "" then
    lift (logcritf "(%s) No public key available, create one and add it to the configuration") ;;~
    yield (Some "No pub key available")
  else
    let keyName := "NGBuild ssh deploy key - " +:+ app appConfig in
    let key := {| keys.Title := keyName; keys.Key' := PublicKey cfg;
                  keys.ReadOnly := true |} in
    c <~ lift theClient ;;
    request (CallCreateKey (Owner cfg) (Repo cfg) key) ;;~
    match CreateKey host c (Owner cfg) (Repo cfg) key with
    | Some err =>
        if negb (Contains err "key is already in use") then
          lift (logcritf "Couldn't create deploy key for %s: %s") ;;~
          yield (Some err)
        else yield None
    | None => yield None
    end.

(** [AttachToApp] for the application whose [Name()] is [name]; the result
    is the error it returns. *)
Definition AttachToApp (name : string) : P E (option error) :=
  init name ;;~
  request (CallAppConfig name "github") ;;~
  let appConfig :=
    {| app := name; config := DecodeConfig host name "github" zeroConfig |} in
  setApp name appConfig ;;~
  setupDeployKey appConfig ;;~
  lift (setupHooks net appConfig) ;;~
  request (CallListen name SignalBuildProvisioning onBuildStarted) ;;~
  request (CallListen name SignalBuildComplete onBuildFinished) ;;~
  yield None.

End Attaching.

(** The deploy key that [setupDeployKey] asks for. *)
Definition deployKey (appConfig : githubApp) : keys.Key :=
  {| keys.Title := "NGBuild ssh deploy key - " +:+ app appConfig;
     keys.Key' := PublicKey (config appConfig);
     keys.ReadOnly := true |}.

(** The process with another world. *)
Definition withWorld {E} (w : World E) (p : Process E) : Process E :=
  mkProcess w (apps p) (printed p) (requests p).

(** The OAuth configuration that [getOauthConfig] makes of the
    integration's settings. *)
Definition oauthSettings (cfg : githubConfig) : oauth2.Config :=
  {| oauth2.ClientID := ClientID cfg;
     oauth2.ClientSecret := ClientSecret cfg;
     oauth2.Scopes := ["repo"] |}.

(** The lines that [acquireOauthToken] prints to ask for an
    authorization. *)
Definition authorizationPrompt (host : Host) (nonce : string) (cfg : githubConfig)
  : list string :=
  [""; "This app must be authenticated with github, please visit the following URL to authenticate this app";
   AuthCodeURL host (oauthSettings cfg) nonce; ""].

(** What [AttachToApp] registers for an application: its name and the
    configuration decoded into an empty [githubConfig]. *)
Definition attachedApp (host : Host) (name : string) : githubApp :=
  {| app := name; config := DecodeConfig host name "github" zeroConfig |}.

(** The settings of the integration once [init] has read them for an
    application. *)
Definition decodedSettings {E} (host : Host) (name : string) (p : Process E)
  : githubConfig :=
  DecodeConfig host name "github" (globalConfig (g (world p))).

Definition isListen (r : Request) : bool :=
  match r with CallListen _ _ _ => true | _ => false end.

Definition isCreateKey (r : Request) : bool :=
  match r with CallCreateKey _ _ _ => true | _ => false end.

(** * The configuration loader (package [core], [config.go])

    The loader reads JSON files under the ngbuild directory, keeps what it
    read in a cache keyed by path, and applies the master configuration and
    then the application's onto a struct.  The file system, the JSON
    parser, [filepath.Join], the environment and [mapstructure.Decode] are
    parameters; the locks are not modelled. *)

(** A value as [json.Unmarshal] leaves it in an [interface{}]; a number is
    kept by its literal. *)
#[local] Unset Elimination Schemes.
Inductive json :=
| JNull
| JBool (b : bool)
| JNumber (literal : string)
| JString (s : string)
| JArray (items : list json)
| JObject (fields : gmap string json).
#[local] Set Elimination Schemes.

Module loader.

(** [type config map[string]interface{}]; a nil [config] is [None] where
    the code tells nil from a map. *)
Abbreviation config := (gmap string json).

Record Files := {
  HOME : string;
  TempDir : string;
  Join : list string → string;
  getNGBuildDirectory : string * option error;
  ReadFile : string → string + error;
  Unmarshal : string → json + error
}.

(** The package variables [configBaseDir] and [configCache], and the paths
    given to [ioutil.ReadFile] so far. *)
Record State := mkState {
  configBaseDir : string;
  configCache : gmap string config;
  reads : list string
}.

Inductive Outcome (A : Type) :=
| Returned (a : A) (st : State)
| Panicked (st : State).
Arguments Returned {A}.
Arguments Panicked {A}.

Definition state_of {A} (o : Outcome A) : State :=
  match o with Returned _ st => st | Panicked st => st end.

Definition L (A : Type) : Type := State → Outcome A.

Definition pure {A} (a : A) : L A := λ st, Returned a st.

Definition seq {A B} (m : L A) (k : A → L B) : L B :=
  λ st, match m st with
        | Returned a st' => k a st'
        | Panicked st' => Panicked st'
        end.

(** What follows [prefix] in [s], when [s] begins with it. *)
Fixpoint stripPrefix (prefix s : string) : option string :=
  match prefix, s with
  | EmptyString, _ => Some s
  | String a prefix', String b s' =>
      if Ascii.eqb a b then stripPrefix prefix' s' else None
  | String _ _, EmptyString => None
  end.

(** [strings.Replace(s, old, new, 1)] for a non-empty [old]: the first
    occurrence of [old] in [s] becomes [new]. *)
Fixpoint Replace1 (s old new : string) : string :=
  match stripPrefix old s with
  | Some rest => new +:+ rest
  | None =>
      match s with
      | EmptyString => EmptyString
      | String c s' => String c (Replace1 s' old new)
      end
  end.

Section Loader.
Variable fs : Files.

Definition expandHome (dir : string) : string :=
  Replace1 dir "~/" (HOME fs +:+ "/").

Definition configDefaults : config :=
  <["cacheDirectory" := JString (expandHome "~/.cache/ngbuild/")]>
    (<["artifactsLocation" := JString (TempDir fs)]>
       (<["buildLocation" := JString (TempDir fs)]> ∅)).

Definition loadConfig (path : string) : L (config + error) :=
  λ st,
    let base :=
      if String.eqb (configBaseDir st) "" then
        match getNGBuildDirectory fs with
        | (_, Some _) => ""
        | (dir, None) => dir
        end
      else configBaseDir st in
    match configCache st !! path with
    | Some c => Returned (inl c) (mkState base (configCache st) (reads st))
    | None =>
        let file := Join fs [base; path] in
        let st := mkState base (configCache st) (reads st ++ [file]) in
        match ReadFile fs file with
        | inr err => Returned (inr err) st
        | inl raw =>
            match Unmarshal fs raw with
            | inr err => Returned (inr err) st
            | inl (JObject conf) =>
                Returned (inl conf)
                  (mkState base (<[path := conf]> (configCache st)) (reads st))
            | inl _ => Panicked st
            end
        end
    end.

Definition loadMasterConfig : L (config + error) := loadConfig "ngbuild.json".

Definition loadAppConfig (appname : string) : L (config + error) :=
  loadConfig (Join fs ["apps"; appname; "config.json"]).

Definition getIntegrationConfig (conf : config) (integrationName : string)
  : option config :=
  match conf !! "Integrations" with
  | None => None
  | Some integrations =>
      match integrations with
      | JObject integrationsMap =>
          match integrationsMap !! integrationName with
          | None => None
          | Some integration =>
              match integration with
              | JObject integrationMap => Some integrationMap
              | _ => None
              end
          end
      | _ => None
      end
  end.

(** [Decode input s] is what [mapstructure.Decode(input, s)] leaves in the
    struct behind [s], and the error it returns. *)
Context {S : Type}.
Variable Decode : config → S → S * option error.

(** The result is the struct as the call leaves it and the error. *)
Definition applyConfig (appname : string) (s : S) : L (S * option error) :=
  match Decode configDefaults s with
  | (s, Some err) => pure (s, Some err)
  | (s, None) =>
      seq loadMasterConfig (λ master,
        match master with
        | inr err => pure (s, Some err)
        | inl master =>
            match Decode master s with
            | (s, Some err) => pure (s, Some err)
            | (s, None) =>
                if negb (String.eqb appname "") then
                  seq (loadAppConfig appname) (λ appconfig,
                    match appconfig with
                    | inr err => pure (s, Some err)
                    | inl appconfig => pure (Decode appconfig s)
                    end)
                else pure (s, None)
            end
        end)
  end.

Definition applyIntegrationConfig (appname integrationName : string) (s : S)
  : L (S * option error) :=
  seq loadMasterConfig (λ master,
    match master with
    | inr err => pure (s, Some err)
    | inl master =>
        let afterMaster :=
          match getIntegrationConfig master integrationName with
          | Some masterIntegration => Decode masterIntegration s
          | None => (s, None)
          end in
        match afterMaster with
        | (s, Some err) => pure (s, Some err)
        | (s, None) =>
            if negb (String.eqb appname "") then
              seq (loadAppConfig appname) (λ appconfig,
                match appconfig with
                | inr err => pure (s, Some err)
                | inl appconfig =>
                    match getIntegrationConfig appconfig integrationName with
                    | Some appIntegration => pure (Decode appIntegration s)
                    | None => pure (s, None)
                    end
                end)
            else pure (s, None)
        end
    end).

End Loader.

End loader.

(** The section of an integration applied to a struct, as
    [applyIntegrationConfig] does for each configuration file. *)
Definition applySection {S} (Decode : loader.config → S → S * option error)
    (conf : loader.config) (name : string) (s : S) : S * option error :=
  match loader.getIntegrationConfig conf name with
  | Some section => Decode section s
  | None => (s, None)
  end.

(** ** A scenario for attaching: the host of the integration *)
Module Startup.

(** The host decodes [decoded] for every application, answers every
    deploy-key request with [key] and lists one private repository. *)
Definition host (decoded : githubConfig) (key : option error) : Host :=
  {| CreateKey := λ _ _ _ _, key;
     ReposList := λ _,
       ([{| Listed := Scenario.repository; Private := true; Fork := false |}],
        None);
     AuthCodeURL := λ cfg state,
       "https://github.com/login/oauth/authorize?client_id=" +:+
       oauth2.ClientID cfg +:+ "&state=" +:+ state;
     DecodeConfig := λ _ _ _, decoded |}.

(** The host of the scenario's application. *)
Definition ci : Host := host (Scenario.settings false false) None.

(** A process that has attached nothing and printed nothing. *)
Definition process (w : World RefEngine.t) : Process RefEngine.t :=
  mkProcess w ∅ [] [].

(** The integration before authentication, after a restart that finds the
    token of an earlier authorization in the cache. *)
Definition restarted : World RefEngine.t :=
  mkWorld (g Scenario.unauthenticated) RefEngine.empty
          {[ "github:token" := "gho_16C7e42F" ]} [] [].

End Startup.

(** ** A scenario for the configuration: two files *)
Module Disk.

(** [filepath.Join] on clean elements: the elements that are not empty,
    with a slash between them. *)
Fixpoint Join (elems : list string) : string :=
  match elems with
  | [] => ""
  | e :: rest =>
      if String.eqb e "" then Join rest
      else if String.eqb (Join rest) "" then e
      else e +:+ "/" +:+ Join rest
  end.

(** What the master file and the file of the application [web] hold,
    decoded; the files themselves are named by their content here. *)
Definition master : loader.config :=
  {[ "Integrations" :=
       JObject {[ "github" :=
         JObject {[ "owner" := JString "watchly";
                    "repo" := JString "ngbuild" ]} ]} ]}.

Definition web : loader.config :=
  {[ "Integrations" :=
       JObject {[ "github" := JObject {[ "repo" := JString "web" ]} ]} ]}.

(** The directory [/etc/ngbuild] holds [ngbuild.json], the configuration
    of the application [web], and for the application [broken] a file
    that holds an empty JSON array. *)
Definition files : loader.Files :=
  {| loader.HOME := "/home/ci";
     loader.TempDir := "/tmp";
     loader.Join := Join;
     loader.getNGBuildDirectory := ("/etc/ngbuild", None);
     loader.ReadFile := λ file,
       if String.eqb file "/etc/ngbuild/ngbuild.json" then inl "master"
       else if String.eqb file "/etc/ngbuild/apps/web/config.json" then inl "web"
       else if String.eqb file "/etc/ngbuild/apps/broken/config.json" then inl "[]"
       else inr "no such file or directory";
     loader.Unmarshal := λ raw,
       if String.eqb raw "master" then inl (JObject master)
       else if String.eqb raw "web" then inl (JObject web)
       else if String.eqb raw "[]" then inl (JArray [])
       else inr "invalid character" |}.

(** The same machine after the directory was removed. *)
Definition wiped : loader.Files :=
  {| loader.HOME := "/home/ci";
     loader.TempDir := "/tmp";
     loader.Join := Join;
     loader.getNGBuildDirectory := ("", Some "no ngbuild directory");
     loader.ReadFile := λ _, inr "no such file or directory";
     loader.Unmarshal := λ _, inr "unexpected end of JSON input" |}.

(** A process that has loaded nothing. *)
Definition fresh : loader.State := loader.mkState "" ∅ [].

(** A decoder that copies every key of its input over the struct, which
    is the map of the keys set so far. *)
Definition Decode (input : loader.config) (s : loader.config)
  : loader.config * option error :=
  (input ∪ s, None).

End Disk.

(** ** Engines that fail a submission

    Modelled from the spec: the build engine is outside [github.go].
    [buildPullRequest] tests the error of the submission, and the error and
    the build of the lookup that follows it; these are the two failures it
    tests for. *)
Module Outage.

(** The reference engine when it takes no submission. *)
Definition refusing : RefEngine.t :=
  {| RefEngine.builds := []; RefEngine.stopped := [];
     RefEngine.refs := ∅; RefEngine.refusing := true |}.

(** An engine that accepts every submission and resolves no token; its
    state is the list of the configurations it accepted. *)
Record Lost := { accepted : list core.BuildConfig }.

Definition NewBuild (group : string) (cfg : core.BuildConfig) (e : Lost)
  : (string * option error) * Lost :=
  ((group +:+ "/" +:+ Itoa (Z.of_nat (length (accepted e))), None),
   {| accepted := accepted e ++ [cfg] |}).

#[global] Instance lost : core.App Lost | 100 := {
  core.NewBuild := NewBuild;
  core.GetBuild := λ _ _, (None, Some "no such build");
  core.Stop := λ _ e, e;
  core.Ref := λ _ e, e;
  core.Unref := λ _ e, e
}.

(** The integration after authentication, tracking nothing, on an engine
    in state [e]. *)
Definition world {E} (e : E) : World E :=
  mkWorld (g (Scenario.world ∅ [] RefEngine.empty)) e ∅ [] [].

End Outage.

(** * Properties *)

(** ** The build ledger *)

Section Ledger.
Context {E : Type} `{!core.App E}.

Lemma hasToken_false token (l : list core.Build) :
  hasToken token l = false ↔ token ∉ map core.Token l.
Proof.
  induction l as [|b l IH]; simpl.
  - split; [intros _; apply not_elem_of_nil | done].
  - destruct (String.eqb_spec (core.Token b) token) as [Heq|Hne].
    + split; [done | intros Hn; exfalso; apply Hn; subst; left].
    + rewrite IH, not_elem_of_cons. split; [by intros ?; split | by intros [_ ?]].
Qed.

Lemma hasToken_app token (l1 l2 : list core.Build) :
  hasToken token (l1 ++ l2) = hasToken token l1 || hasToken token l2.
Proof.
  induction l1 as [|b l1 IH]; simpl; [done|].
  destruct (String.eqb (core.Token b) token); [done | apply IH].
Qed.

(** What the loop of [untrackBuild] finds: nothing, or the first tracked
    build with the token, at its position. *)
Lemma findBuildIndex_spec token (l : list core.Build) i :
  (hasToken token l = false ∧ findBuildIndex token i l = -1) ∨
  (∃ l1 b l2, l = l1 ++ b :: l2 ∧ hasToken token l1 = false ∧
              core.Token b = token ∧
              findBuildIndex token i l = i + Z.of_nat (length l1)).
Proof.
  revert i. induction l as [|b l IH]; intros i; simpl.
  - by left.
  - destruct (String.eqb_spec (core.Token b) token) as [Heq|Hne].
    + right. exists [], b, l. simpl. split_and!; [done..|lia].
    + destruct (IH (i + 1)) as [[Hh Hf]|(l1 & b' & l2 & -> & Hh & Ht & Hf)].
      * by left.
      * right. exists (b :: l1), b', l2. simpl.
        destruct (String.eqb_spec (core.Token b) token); [done|].
        split_and!; [done..|]. rewrite Hf. lia.
Qed.

Lemma filter_other_token token (l : list core.Build) :
  hasToken token l = false →
  List.filter (λ b, negb (String.eqb (core.Token b) token)) l = l.
Proof.
  induction l as [|b l IH]; simpl; [done|].
  destruct (String.eqb (core.Token b) token); [done|].
  simpl. intros Hh. by rewrite IH.
Qed.

Lemma ledger_split token (l1 l2 : list core.Build) b :
  NoDup (map core.Token (l1 ++ b :: l2)) → core.Token b = token →
  hasToken token l2 = false ∧ NoDup (map core.Token (l1 ++ l2)).
Proof.
  rewrite !map_app. simpl. intros Hnd Ht.
  apply NoDup_app in Hnd as (Hnd1 & Hdisj & Hnd2).
  apply NoDup_cons in Hnd2 as [Hnotin Hnd2].
  split.
  - apply hasToken_false. by rewrite <- Ht.
  - apply NoDup_app. split_and!; [done| |done].
    intros x Hx Hx2. apply (Hdisj x Hx). by right.
Qed.

End Ledger.

(** Unfolding the primitives of the handler monad. *)
Ltac unfold_prims :=
  unfold buildStop, buildRef, buildUnref, appGetBuild, appNewBuild,
    StoreCache, setClient, theClient, setTrackedBuilds,
    setTrackedPullRequests, setClientField, loginfof, logwarnf, logcritf,
    logf, call, getG, setG, getEng, setEng, bind, ret, panic in *.

Section LedgerOps.
Context {E : Type} `{!core.App E}.

Lemma trackBuild_absent (build : core.Build) (w : World E) :
  hasToken (core.Token build) (trackedBuilds (g w)) = false →
  trackBuild build w =
    Ret tt (mkWorld
              {| globalConfig := globalConfig (g w); client := client (g w);
                 trackedPullRequests := trackedPullRequests (g w);
                 trackedBuilds := trackedBuilds (g w) ++ [build] |}
              (core.Ref build (eng w)) (cache w)
              (calls w ++ [CallRef build]) (logs w)).
Proof. intros Hh. unfold trackBuild. unfold_prims. simpl. by rewrite Hh. Qed.

Lemma trackBuild_present (build : core.Build) (w : World E) :
  hasToken (core.Token build) (trackedBuilds (g w)) = true →
  trackBuild build w = Ret tt w.
Proof. intros Hh. unfold trackBuild. unfold_prims. simpl. by rewrite Hh. Qed.

Lemma untrackBuild_absent (build : core.Build) (w : World E) :
  hasToken (core.Token build) (trackedBuilds (g w)) = false →
  untrackBuild build w = Ret tt w.
Proof.
  intros Hh. unfold untrackBuild. unfold_prims. simpl.
  destruct (findBuildIndex_spec (core.Token build) (trackedBuilds (g w)) 0)
    as [[_ ->]|(l1 & b & l2 & Hl & _ & Hb & _)]; [done|].
  rewrite Hl, hasToken_app in Hh. simpl in Hh.
  apply (proj2 (String.eqb_eq _ _)) in Hb. rewrite Hb in Hh.
  by rewrite orb_true_r in Hh.
Qed.

Lemma untrackBuild_present (build : core.Build) (w : World E) :
  hasToken (core.Token build) (trackedBuilds (g w)) = true →
  ∃ l1 tracked l2,
    trackedBuilds (g w) = l1 ++ tracked :: l2 ∧
    hasToken (core.Token build) l1 = false ∧
    core.Token tracked = core.Token build ∧
    untrackBuild build w =
      Ret tt (mkWorld
                {| globalConfig := globalConfig (g w); client := client (g w);
                   trackedPullRequests := trackedPullRequests (g w);
                   trackedBuilds := l1 ++ l2 |}
                (core.Unref tracked (eng w)) (cache w)
                (calls w ++ [CallUnref tracked]) (logs w)).
Proof.
  intros Hh.
  destruct (findBuildIndex_spec (core.Token build) (trackedBuilds (g w)) 0)
    as [[Hf _]|(l1 & b & l2 & Hl & Hl1 & Hb & Hi)]; [congruence|].
  exists l1, b, l2. split_and!; [done..|].
  unfold untrackBuild. unfold_prims. simpl. rewrite Hi, Hl.
  destruct (Z.ltb_spec (0 + Z.of_nat (length l1)) 0) as [?|_]; [lia|].
  replace (Z.to_nat (0 + Z.of_nat (length l1))) with (length l1) by lia.
  replace (Z.to_nat (0 + Z.of_nat (length l1) + 1)) with (S (length l1)) by lia.
  rewrite list_lookup_middle by done.
  rewrite take_app_length.
  replace (l1 ++ b :: l2) with ((l1 ++ [b]) ++ l2) by (by rewrite <- app_assoc).
  replace (S (length l1)) with (length (l1 ++ [b])) by (rewrite length_app; simpl; lia).
  by rewrite drop_app_length.
Qed.

End LedgerOps.

(** ** What the tracker leaves alone *)

(** Case analysis on every test a handler makes, after unfolding. *)
Ltac split_run :=
  repeat (simpl in *;
          match goal with
          | |- context [match ?x with _ => _ end] =>
              lazymatch x with
              | context [match _ with _ => _ end] => fail
              | _ => destruct x eqn:?
              end
          | |- context [if ?x then _ else _] =>
              lazymatch x with
              | context [if _ then _ else _] => fail
              | context [match _ with _ => _ end] => fail
              | _ => destruct x eqn:?
              end
          end);
  simpl in *.

Section Frame.
Context {E : Type} `{!core.App E}.
Variable net : Remote.

Lemma session_same_refl (w : World E) : session_same w w.
Proof. by unfold session_same. Qed.

Lemma preserves_ret {A} (a : A) : preserves_session (ret (E:=E) a).
Proof. intros w. apply session_same_refl. Qed.

Lemma preserves_panic {A} : preserves_session (panic (E:=E) (A:=A)).
Proof. intros w. apply session_same_refl. Qed.

Lemma preserves_bind {A B} (m : M E A) (k : A → M E B) :
  preserves_session m → (∀ a, preserves_session (k a)) →
  preserves_session (bind m k).
Proof.
  intros Hm Hk w. unfold bind. specialize (Hm w).
  destruct (m w) as [a w'|w']; simpl in *; [|done].
  specialize (Hk a w'). unfold session_same in *.
  destruct Hm as (Hb & Hc & Hg & Hs). rewrite <- Hb, <- Hc, <- Hg, <- Hs.
  exact Hk.
Qed.

Lemma preserves_getG : preserves_session (getG (E:=E)).
Proof. intros w. apply session_same_refl. Qed.

Lemma preserves_getEng : preserves_session (getEng (E:=E)).
Proof. intros w. apply session_same_refl. Qed.

Lemma preserves_setEng (e : E) : preserves_session (setEng e).
Proof. by intros w. Qed.

Lemma preserves_call (c : Call) : preserves_session (call (E:=E) c).
Proof. by intros w. Qed.

Lemma preserves_logf l str : preserves_session (logf (E:=E) l str).
Proof. by intros w. Qed.

Lemma preserves_setTrackedPullRequests prs :
  preserves_session (setTrackedPullRequests (E:=E) prs).
Proof. by intros w. Qed.

(** A handler made of these steps preserves the session. *)
Ltac frame :=
  repeat (intros;
          first
            [ match goal with
              | known : context [preserves_session] |- _ => apply known
              end
            | apply preserves_setTrackedPullRequests
            | apply preserves_logf
            | apply preserves_call
            | apply preserves_setEng
            | apply preserves_getEng
            | apply preserves_getG
            | apply preserves_ret
            | apply preserves_panic
            | apply preserves_bind
            | match goal with
              | |- preserves_session (match ?x with _ => _ end) => destruct x
              | |- preserves_session (if ?x then _ else _) => destruct x
              end ]).

Lemma startBuild_frame app pull status :
  preserves_session (startBuild (E:=E) app pull status).
Proof. unfold startBuild, appNewBuild, appGetBuild. frame. Qed.

Lemma buildPullRequest_frame app pull :
  preserves_session (buildPullRequest (E:=E) app pull).
Proof.
  pose proof startBuild_frame.
  unfold buildPullRequest, appGetBuild, buildStop. frame.
Qed.

Lemma trackPullRequest_frame app event :
  preserves_session (trackPullRequest (E:=E) net app event).
Proof.
  pose proof buildPullRequest_frame.
  unfold trackPullRequest, theClient. frame.
Qed.

Lemma updatePullRequest_frame app event :
  preserves_session (updatePullRequest (E:=E) net app event).
Proof.
  pose proof buildPullRequest_frame. pose proof trackPullRequest_frame.
  unfold updatePullRequest. frame.
Qed.

Lemma closedPullRequest_frame app event :
  preserves_session (closedPullRequest (E:=E) app event).
Proof. unfold closedPullRequest, appGetBuild, buildStop. frame. Qed.

End Frame.

Section LedgerInvariant.
Context {E : Type} `{!core.App E}.
Variable net : Remote.
Variable oauth2State : string.

Lemma handleGithubAuth_ledger state code (w : World E) :
  trackedBuilds (g (world_of (handleGithubAuth net oauth2State state code w))) =
  trackedBuilds (g w).
Proof. unfold handleGithubAuth. unfold_prims. split_run; done. Qed.

Lemma setupHooks_ledger appConfig (w : World E) :
  trackedBuilds (g (world_of (setupHooks net appConfig w))) = trackedBuilds (g w).
Proof. unfold setupHooks. unfold_prims. split_run; done. Qed.

(** C7. The build ledger never holds a token twice, and every operation
    keeps it so.  [trackBuild] of a token that is not tracked appends the
    build and takes one reference ([Ref] is called once, on that build);
    of a token that is tracked it changes nothing.  [untrackBuild] of a
    token that is not tracked changes nothing; of a tracked token it
    removes the tracked build with that token, so that the token is gone
    from the ledger and the other builds stay in order, and releases one
    reference ([Unref] is called once, on the tracked build).  The
    handlers of the tracker, of the OAuth callback and of the webhook
    registration do not touch the ledger. *)
Theorem ledger_invariant_preserved (w : World E) :
  ledger_ok (g w) →
  (∀ build,
     let o := trackBuild build w in
     returns o = true ∧ ledger_ok (g (world_of o)) ∧
     if hasToken (core.Token build) (trackedBuilds (g w)) then world_of o = w
     else trackedBuilds (g (world_of o)) = trackedBuilds (g w) ++ [build] ∧
          calls (world_of o) = calls w ++ [CallRef build] ∧
          eng (world_of o) = core.Ref build (eng w)) ∧
  (∀ build,
     let o := untrackBuild build w in
     returns o = true ∧ ledger_ok (g (world_of o)) ∧
     if hasToken (core.Token build) (trackedBuilds (g w)) then
       ∃ tracked,
         tracked ∈ trackedBuilds (g w) ∧
         core.Token tracked = core.Token build ∧
         hasToken (core.Token build) (trackedBuilds (g (world_of o))) = false ∧
         trackedBuilds (g (world_of o)) =
           List.filter (λ b, negb (String.eqb (core.Token b) (core.Token build)))
                       (trackedBuilds (g w)) ∧
         calls (world_of o) = calls w ++ [CallUnref tracked] ∧
         eng (world_of o) = core.Unref tracked (eng w)
     else world_of o = w) ∧
  (∀ app event state code,
     trackedBuilds (g (world_of (trackPullRequest net app event w))) = trackedBuilds (g w) ∧
     trackedBuilds (g (world_of (updatePullRequest net app event w))) = trackedBuilds (g w) ∧
     trackedBuilds (g (world_of (closedPullRequest app event w))) = trackedBuilds (g w) ∧
     (∀ pull, trackedBuilds (g (world_of (buildPullRequest app pull w))) = trackedBuilds (g w)) ∧
     trackedBuilds (g (world_of (handleGithubAuth net oauth2State state code w))) = trackedBuilds (g w) ∧
     trackedBuilds (g (world_of (setupHooks net app w))) = trackedBuilds (g w)).
Proof.
  intros Hok. split_and!.
  - intros build o. subst o.
    destruct (hasToken (core.Token build) (trackedBuilds (g w))) eqn:Hh.
    + rewrite (trackBuild_present _ _ Hh). by simpl.
    + rewrite (trackBuild_absent _ _ Hh). simpl. split_and!; try done.
      unfold ledger_ok. simpl. rewrite map_app. simpl.
      apply NoDup_app. split_and!; [done| |apply NoDup_singleton].
      intros x Hx Hx'. apply list_elem_of_singleton in Hx'. subst x.
      by apply hasToken_false in Hh.
  - intros build o. subst o.
    destruct (hasToken (core.Token build) (trackedBuilds (g w))) eqn:Hh.
    + destruct (untrackBuild_present _ _ Hh)
        as (l1 & tracked & l2 & Hl & Hl1 & Ht & ->).
      unfold ledger_ok in Hok. rewrite Hl in Hok.
      destruct (ledger_split _ _ _ _ Hok Ht) as [Hl2 Hnd].
      simpl. split_and!; [done|done|].
      exists tracked. split_and!; try done.
      * rewrite Hl. apply elem_of_app. right. left.
      * by rewrite hasToken_app, Hl1, Hl2.
      * rewrite Hl, List.filter_app. simpl.
        apply (proj2 (String.eqb_eq _ _)) in Ht. rewrite Ht. simpl.
        by rewrite !filter_other_token.
    + rewrite (untrackBuild_absent _ _ Hh). by simpl.
  - intros app event state code. split_and!.
    + apply trackPullRequest_frame.
    + apply updatePullRequest_frame.
    + apply closedPullRequest_frame.
    + intros pull. apply buildPullRequest_frame.
    + apply handleGithubAuth_ledger.
    + apply setupHooks_ledger.
Qed.

End LedgerInvariant.

(** ** Duplicate suppression *)


Section Duplicates.
Context {E : Type} `{!core.App E}.
Variable net : Remote.

Lemma buildPullRequest_duplicate app pull (w : World E) status build err :
  trackedPullRequests (g w) !! Itoa (github.ID pull) = Some status →
  core.GetBuild (currentBuild status) (eng w) = (Some build, err) →
  core.GetMetadata "github:HeadHash" (core.Config build) = github.SHA (github.Head pull) →
  buildPullRequest app pull w =
    Ret tt (mkWorld (g w) (eng w) (cache w)
              (calls w ++ [CallGetBuild (currentBuild status)])
              ((logs w ++ [(Info, "Building pull request: %s")]) ++
                 [(Warn, "Already building/built this commit")])).
Proof.
  intros Hst Hget Hhash. unfold buildPullRequest. unfold_prims. simpl.
  rewrite Hst. simpl. rewrite Hget. simpl. rewrite Hhash.
  by rewrite String.eqb_refl.
Qed.

End Duplicates.

Lemma submissions_app (cs cs' : list Call) :
  submissions (cs ++ cs') = (submissions cs + submissions cs')%nat.
Proof. unfold submissions. by rewrite List.filter_app, length_app. Qed.

Lemma stops_app (cs cs' : list Call) :
  stops (cs ++ cs') = (stops cs + stops cs')%nat.
Proof. unfold stops. by rewrite List.filter_app, length_app. Qed.

Lemma broadcasts_app (cs cs' : list Call) :
  broadcasts (cs ++ cs') = (broadcasts cs + broadcasts cs')%nat.
Proof. unfold broadcasts. by rewrite List.filter_app, length_app. Qed.

Create Rewrite HintDb trace.
#[global] Hint Rewrite submissions_app stops_app broadcasts_app : trace.

(** Counting in a trace that a handler extended by explicit calls. *)
Ltac count_calls :=
  autorewrite with trace in *; unfold submissions, stops, broadcasts in *;
  simpl in *; lia.


Section TwoSynchronizes.
Context {E : Type} `{!core.App E}.
Variable net : Remote.



End TwoSynchronizes.

(** ** Supersession and closing *)

(** Opening up a handler run on a world given by its fields. *)
Ltac open_world w :=
  let gc := fresh "gc" in let cl := fresh "cl" in
  let prs := fresh "prs" in let blds := fresh "blds" in
  let e := fresh "e" in let c := fresh "c" in
  let cs := fresh "cs" in let ls := fresh "ls" in
  destruct w as [[gc cl prs blds] e c cs ls]; simpl in *.

Ltac open_handlers :=
  unfold updatePullRequest, closedPullRequest, trackPullRequest,
    buildPullRequest, startBuild, handleGithubAuth, setupHooks in *;
  unfold_prims; simpl in *.

Section Supersession.
Context {E : Type} `{!core.App E}.
Variable net : Remote.

(** C3. A synchronize event with a new head commit, on a tracked pull
    request whose current build is live: the handler looks the build up,
    requests one stop on it when cancel-on-new-commit is set and none when
    it is not, and then submits the new build, in this order; nothing
    after the submission is a stop or a submission. *)
Theorem new_commit_supersedes app pull (w : World E) status prior err :
  trackedPullRequests (g w) !! Itoa (github.ID pull) = Some status →
  core.GetBuild (currentBuild status) (eng w) = (Some prior, err) →
  core.GetMetadata "github:HeadHash" (core.Config prior) ≠
    github.SHA (github.Head pull) →
  let o := updatePullRequest net app (synchronize pull) w in
  returns o = true ∧
  (∃ rest,
     calls (world_of o) =
       calls w ++ [CallGetBuild (currentBuild status)] ++
       (if CancelOnNewCommit (config app) then [CallStop prior] else []) ++
       [CallNewBuild (Itoa (github.ID pull)) (pullBuildConfig pull)] ++ rest ∧
     stops rest = 0%nat ∧ submissions rest = 0%nat) ∧
  stops (calls (world_of o)) =
    (stops (calls w) + if CancelOnNewCommit (config app) then 1 else 0)%nat ∧
  submissions (calls (world_of o)) = S (submissions (calls w)).
Proof.
  intros Hst Hget Hhash o. subst o. open_world w. open_handlers.
  apply String.eqb_neq in Hhash.
  repeat (progress (rewrite ?Hst, ?Hget, ?Hhash; simpl)).
  split_run.
  all: split; [done|]; split; [|by count_calls].
  all: rewrite <- ?app_assoc; simpl; eexists; split;
    [rewrite ?app_nil_r; reflexivity|done].
Qed.

(** C4. A closed event for a tracked pull request removes its entry
    whatever the configuration says, after looking the current build up
    and stopping it exactly when cancel-on-new-commit is set and the token
    resolves to a build; no build is submitted.  A closed event for an
    identifier that is not tracked returns with the world unchanged. *)
Theorem closed_removes_entry app pull (w : World E) :
  let pullID := Itoa (github.ID pull) in
  let o := closedPullRequest app (closed pull) w in
  returns o = true ∧
  match trackedPullRequests (g w) !! pullID with
  | None => world_of o = w
  | Some status =>
      trackedPullRequests (g (world_of o)) = delete pullID (trackedPullRequests (g w)) ∧
      trackedPullRequests (g (world_of o)) !! pullID = None ∧
      calls (world_of o) =
        calls w ++ [CallGetBuild (currentBuild status)] ++
        match (core.GetBuild (currentBuild status) (eng w)).1 with
        | Some build =>
            if CancelOnNewCommit (config app) then [CallStop build] else []
        | None => []
        end ∧
      submissions (calls (world_of o)) = submissions (calls w)
  end.
Proof.
  intros pullID o. subst pullID o. open_world w. open_handlers.
  split_run; split; try done.
  all: rewrite lookup_delete_eq, <- ?app_assoc; simpl.
  all: split_and!; try done; by count_calls.
Qed.

End Supersession.

(** ** The OAuth callback *)

Section OAuth.
Context {E : Type} `{!core.App E}.
Variable net : Remote.
Variable oauth2State : string.

(** C5. A callback whose [state] is not the process nonce returns with the
    world unchanged: no client is installed, nothing is stored and no
    waiter is released.  With the right [state] and a failing exchange the
    only effect is the call to the token endpoint: the integration's
    state and the cache are unchanged and no waiter is released.  With
    the right [state] and a successful exchange the token is stored under
    ["github:token"], the client built from it is installed and the
    waiters are released once.  So a callback that changes the client or
    the cache, or releases the waiters, had the right [state] and a
    successful exchange. *)
Theorem oauth_callback_gate state code (w : World E) :
  let o := handleGithubAuth net oauth2State state code w in
  let w' := world_of o in
  returns o = true ∧
  (state ≠ oauth2State → w' = w) ∧
  (∀ err, state = oauth2State →
     Exchange net (getOauthConfig (g w)) code = inr err →
     g w' = g w ∧ cache w' = cache w ∧ eng w' = eng w ∧
     calls w' = calls w ++ [CallExchange code] ∧
     broadcasts (calls w') = broadcasts (calls w)) ∧
  (∀ token, state = oauth2State →
     Exchange net (getOauthConfig (g w)) code = inl token →
     client (g w') = Some (NewClient (getOauthConfig (g w)) token) ∧
     cache w' = <["github:token" := oauth2.AccessToken token]> (cache w) ∧
     calls w' = calls w ++ [CallExchange code;
                            CallStoreCache "github:token" (oauth2.AccessToken token);
                            CallBroadcast] ∧
     broadcasts (calls w') = S (broadcasts (calls w))) ∧
  (client (g w') ≠ client (g w) ∨ cache w' ≠ cache w ∨
   broadcasts (calls w') ≠ broadcasts (calls w) →
   state = oauth2State ∧
   ∃ token, Exchange net (getOauthConfig (g w)) code = inl token).
Proof.
  intros o w'. subst w' o. open_world w. open_handlers.
  destruct (String.eqb_spec state oauth2State) as [Heq|Hne]; simpl.
  - destruct (Exchange net _ code) as [token|err] eqn:Hex; simpl.
    + split_and!; try done.
      * intros token' _ [= <-]. rewrite <- !app_assoc. simpl.
        split_and!; try done. by count_calls.
      * intros _. eauto.
    + split_and!; try done.
      * intros err' _ [= <-]. split_and!; try done. by count_calls.
      * intros [Hc|[Hc|Hc]]; [done..|]. exfalso. apply Hc. by count_calls.
  - split_and!; try done. intros [Hc|[Hc|Hc]]; done.
Qed.

End OAuth.

(** ** Submission failure *)

Section Submission.
Context {E : Type} `{!core.App E}.

(** C6. [buildPullRequest] on a commit that is not already built submits
    once.  If the submission fails, the entry keeps the token it had (a
    new entry keeps the empty token) and nothing is submitted again.  If
    the submission succeeds and the returned token resolves to a build,
    the entry's [currentBuild] becomes that token.  If the token does not
    resolve, the entry keeps the token it had. *)
Theorem submission_outcome app pull (w : World E) :
  let pullID := Itoa (github.ID pull) in
  let status :=
    default {| pull := pull; currentBuild := ""; mergeOnPass := false |}
            (trackedPullRequests (g w) !! pullID) in
  let submitted :=
    core.NewBuild pullID (pullBuildConfig pull) (engineAtSubmit app status (eng w)) in
  let o := buildPullRequest app pull w in
  alreadyBuilt pull status (eng w) = false →
  returns o = true ∧
  submissions (calls (world_of o)) = S (submissions (calls w)) ∧
  eng (world_of o) = submitted.2 ∧
  (submitted.1.2 ≠ None →
     trackedPullRequests (g (world_of o)) =
       <[pullID := status]> (trackedPullRequests (g w)) ∧
     (currentBuild <$> trackedPullRequests (g (world_of o)) !! pullID) =
       Some (currentBuild status)) ∧
  (submitted.1.2 = None →
     match core.GetBuild submitted.1.1 submitted.2 with
     | (Some _, None) =>
         trackedPullRequests (g (world_of o)) =
           <[pullID := withCurrentBuild status submitted.1.1]>
             (trackedPullRequests (g w)) ∧
         (currentBuild <$> trackedPullRequests (g (world_of o)) !! pullID) =
           Some submitted.1.1
     | _ =>
         trackedPullRequests (g (world_of o)) =
           <[pullID := status]> (trackedPullRequests (g w))
     end).
Proof.
  intros pullID status submitted o. subst pullID status submitted o.
  unfold engineAtSubmit, alreadyBuilt. open_world w. open_handlers.
  destruct (prs !! Itoa (github.ID pull)) as [status|] eqn:Hst; simpl.
  - intros Hnot.
    destruct (core.GetBuild (currentBuild status) e) as [[prior|] err] eqn:Hget;
      simpl in *; rewrite ?Hnot; simpl.
    + destruct (CancelOnNewCommit (config app)); simpl.
      all: destruct (core.NewBuild _ _ _) as [[token [err'|]] e'] eqn:Hnew; simpl.
      all: try (destruct (core.GetBuild token e') as [[b|] [err''|]] eqn:Hget'; simpl).
      all: rewrite ?lookup_insert_eq, ?(insert_id _ _ _ Hst), ?Hst; simpl.
      all: split_and!; try done; by count_calls.
    + destruct (core.NewBuild _ _ _) as [[token [err'|]] e'] eqn:Hnew; simpl.
      all: try (destruct (core.GetBuild token e') as [[b|] [err''|]] eqn:Hget'; simpl).
      all: rewrite ?lookup_insert_eq, ?(insert_id _ _ _ Hst), ?Hst; simpl.
      all: split_and!; try done; by count_calls.
  - intros Hnot.
    destruct (core.GetBuild "" e) as [[prior|] err] eqn:Hget;
      simpl in *; rewrite ?Hnot; simpl.
    + destruct (CancelOnNewCommit (config app)); simpl.
      all: destruct (core.NewBuild _ _ _) as [[token [err'|]] e'] eqn:Hnew; simpl.
      all: try (destruct (core.GetBuild token e') as [[b|] [err''|]] eqn:Hget'; simpl).
      all: rewrite ?insert_insert_eq, ?lookup_insert_eq; simpl.
      all: split_and!; try done; by count_calls.
    + destruct (core.NewBuild _ _ _) as [[token [err'|]] e'] eqn:Hnew; simpl.
      all: try (destruct (core.GetBuild token e') as [[b|] [err''|]] eqn:Hget'; simpl).
      all: rewrite ?insert_insert_eq, ?lookup_insert_eq; simpl.
      all: split_and!; try done; by count_calls.
Qed.

End Submission.

(** ** The authorization gate and the branch filter *)

Section Gate.
Context {E : Type} `{!core.App E}.
Variable net : Remote.

(** C1, as the code has it.  An event that goes through
    [trackPullRequest] (an opened event, or through [updatePullRequest] a
    synchronize event for an identifier that is not tracked) and that the
    gate rejects is dropped: the integration's state, with the tracked
    pull requests, and the engine are unchanged and no build is
    submitted.  A synchronize event for an identifier that is tracked is
    not checked: [updatePullRequest] does what [buildPullRequest] does. *)
Theorem gate_drops_event app action pull (w : World E) :
  gateRejects net app pull (client (g w)) →
  (let o := trackPullRequest net app (prEvent action pull) w in
   g (world_of o) = g w ∧ eng (world_of o) = eng w ∧
   submissions (calls (world_of o)) = submissions (calls w)) ∧
  (trackedPullRequests (g w) !! Itoa (github.ID pull) = None →
   let o := updatePullRequest net app (prEvent action pull) w in
   g (world_of o) = g w ∧ eng (world_of o) = eng w ∧
   submissions (calls (world_of o)) = submissions (calls w)) ∧
  (is_Some (trackedPullRequests (g w) !! Itoa (github.ID pull)) →
   updatePullRequest net app (prEvent action pull) w = buildPullRequest app pull w).
Proof.
  intros Hgate.
  assert (Htrack :
    let o := trackPullRequest net app (prEvent action pull) w in
    ∀ ls, let o' := trackPullRequest net app (prEvent action pull)
                      (mkWorld (g w) (eng w) (cache w) (calls w) ls) in
    g (world_of o') = g w ∧ eng (world_of o') = eng w ∧
    submissions (calls (world_of o')) = submissions (calls w)).
  { unfold gateRejects, collaboratorAnswer in Hgate. intros o ls0 o'. subst o o'.
    open_world w. unfold prEvent. open_handlers.
    destruct cl as [c0|]; simpl; [|by split_and!].
    destruct (IsCollaborator net c0 _ _ _) as [isC [err|]] eqn:Hc; simpl.
    { split_and!; try done. by count_calls. }
    destruct isC; simpl; [|split_and!; try done; by count_calls].
    destruct (isIgnoredBranch _ _) eqn:Hig; simpl.
    { split_and!; try done; by count_calls. }
    exfalso. destruct Hgate as [(c1 & [= <-] & Hq)|[(c1 & [= <-] & Hq)|Hq]].
    - by rewrite Hc in Hq.
    - by rewrite Hc in Hq.
    - done. }
  split_and!.
  - intros o. subst o. specialize (Htrack (logs w)). by destruct w.
  - intros Hnone o. subst o. unfold updatePullRequest, prEvent. unfold_prims.
    simpl. rewrite Hnone. apply Htrack.
  - intros [status Hst]. unfold updatePullRequest, prEvent. unfold_prims.
    simpl. by rewrite Hst.
Qed.

End Gate.

(** ** New and replaced entries *)

Section Entries.
Context {E : Type} `{!core.App E}.
Variable net : Remote.

Lemma startBuild_entries app pull status (w : World E) key st :
  trackedPullRequests (g (world_of (startBuild app pull status w))) !! key = Some st →
  trackedPullRequests (g w) !! key = Some st ∨
  (key = Itoa (github.ID pull) ∧ ∃ token, st = withCurrentBuild status token).
Proof.
  open_world w. open_handlers. split_run; eauto.
  intros Hst. apply lookup_insert_Some in Hst as [[<- <-]|[_ Hst]]; eauto.
Qed.

Lemma buildPullRequest_entries app pull (w : World E) key st :
  trackedPullRequests (g (world_of (buildPullRequest app pull w))) !! key = Some st →
  trackedPullRequests (g w) !! key = Some st ∨
  (key = Itoa (github.ID pull) ∧
   ∃ token, st = withCurrentBuild
                   (default (freshStatus pull)
                            (trackedPullRequests (g w) !! Itoa (github.ID pull)))
                   token).
Proof.
  open_world w. unfold freshStatus. open_handlers. split_run.
  all: intros Hk.
  all: repeat match type of Hk with
         | <[_:=_]> _ !! _ = Some _ =>
             apply lookup_insert_Some in Hk as [[<- <-]|[? Hk]]
         end.
  all: first [ by left
             | right; split; [done|]; first [by eexists | by exists ""] ].
Qed.

(** C9, as the code has it.  An entry that a handler creates has
    [mergeOnPass] false, whatever the application's [MergeOnPass] setting
    is: after [trackPullRequest], [updatePullRequest] or
    [buildPullRequest], an entry under a key that had none has the flag
    unset. *)
Theorem created_entry_mergeOnPass_false app action pull (w : World E) key st :
  trackedPullRequests (g w) !! key = None →
  (trackedPullRequests (g (world_of (buildPullRequest app pull w))) !! key = Some st →
   mergeOnPass st = false) ∧
  (trackedPullRequests
     (g (world_of (trackPullRequest net app (prEvent action pull) w))) !! key = Some st →
   mergeOnPass st = false) ∧
  (trackedPullRequests
     (g (world_of (updatePullRequest net app (prEvent action pull) w))) !! key = Some st →
   mergeOnPass st = false).
Proof.
  intros Hnone.
  assert (Hbuild : ∀ ls cs,
    trackedPullRequests (g (world_of (buildPullRequest app pull
      (mkWorld (g w) (eng w) (cache w) cs ls)))) !! key = Some st →
    mergeOnPass st = false).
  { intros ls0 cs0 Hk. apply buildPullRequest_entries in Hk. simpl in Hk.
    destruct Hk as [Hk|[-> [token ->]]]; [congruence|].
    by rewrite Hnone. }
  assert (Htrack : ∀ ls,
    trackedPullRequests (g (world_of (trackPullRequest net app (prEvent action pull)
      (mkWorld (g w) (eng w) (cache w) (calls w) ls)))) !! key = Some st →
    mergeOnPass st = false).
  { intros ls0. unfold trackPullRequest, prEvent. unfold_prims. simpl.
    destruct (client (g w)); simpl; [|congruence].
    destruct (IsCollaborator _ _ _ _ _) as [isC [err|]]; simpl; [congruence|].
    destruct isC; simpl; [|congruence].
    destruct (isIgnoredBranch _ _); simpl; [congruence|].
    intros Hk. apply buildPullRequest_entries in Hk. simpl in Hk.
    destruct Hk as [Hk|[-> [token ->]]].
    - apply lookup_insert_Some in Hk as [[<- <-]|[_ Hk]]; [done|congruence].
    - by rewrite lookup_insert_eq. }
  split_and!.
  - intros Hk. apply (Hbuild (logs w) (calls w)). by destruct w.
  - intros Hk. apply (Htrack (logs w)). by destruct w.
  - unfold updatePullRequest, prEvent. unfold_prims. simpl.
    destruct (trackedPullRequests (g w) !! Itoa (github.ID pull)) eqn:Hst; simpl.
    + intros Hk. apply (Hbuild (logs w) (calls w)). by destruct w.
    + apply Htrack.
Qed.

(** C10.  [trackPullRequest] for an identifier that is already tracked,
    once the gate lets the event through, replaces the entry by a fresh
    one and goes on as [buildPullRequest] does from there.  So the
    outcome does not depend on the entry that was stored; and when the
    engine resolves the empty token to no build, the handler stops nothing
    and submits one build, whatever build the replaced entry cited. *)
Theorem retrack_discards_token app action pull (w : World E) c prior :
  client (g w) = Some c →
  collaboratorAnswer net c pull = (true, None) →
  isIgnoredBranch (github.Ref (github.Base pull)) (IgnoredBranches (config app)) = false →
  trackedPullRequests (g w) !! Itoa (github.ID pull) = Some prior →
  let pullID := Itoa (github.ID pull) in
  let query :=
    CallIsCollaborator
      (github.Login (github.Owner (github.Repo (github.Base pull))))
      (github.Name (github.Repo (github.Base pull)))
      (github.Login (github.User' pull)) in
  let o := trackPullRequest net app (prEvent action pull) w in
  o = buildPullRequest app pull
        (withCalls (calls w ++ [query])
           (withTracked (<[pullID := freshStatus pull]> (trackedPullRequests (g w))) w)) ∧
  (∀ other,
     trackPullRequest net app (prEvent action pull)
       (withTracked (<[pullID := other]> (trackedPullRequests (g w))) w) = o) ∧
  ((core.GetBuild "" (eng w)).1 = None →
   returns o = true ∧
   stops (calls (world_of o)) = stops (calls w) ∧
   submissions (calls (world_of o)) = S (submissions (calls w)) ∧
   ∃ rest,
     calls (world_of o) =
       calls w ++ [query; CallGetBuild "";
                   CallNewBuild pullID (pullBuildConfig pull)] ++ rest).
Proof.
  intros Hcl Hcollab Hign Hprior pullID query o. subst pullID query o.
  unfold collaboratorAnswer in Hcollab.
  assert (Heq : ∀ prs,
    trackPullRequest net app (prEvent action pull) (withTracked prs w) =
    buildPullRequest app pull
      (withCalls (calls w ++ [CallIsCollaborator
          (github.Login (github.Owner (github.Repo (github.Base pull))))
          (github.Name (github.Repo (github.Base pull)))
          (github.Login (github.User' pull))])
         (withTracked (<[Itoa (github.ID pull) := freshStatus pull]> prs) w))).
  { intros prs0. unfold trackPullRequest, prEvent, withTracked, withCalls.
    unfold_prims. simpl. rewrite Hcl. simpl. rewrite Hcollab. simpl.
    by rewrite Hign. }
  assert (Hw : withTracked (trackedPullRequests (g w)) w = w).
  { by destruct w as [[]]. }
  assert (Ho := Heq (trackedPullRequests (g w))). rewrite Hw in Ho.
  split_and!.
  - done.
  - intros other. by rewrite Heq, insert_insert_eq.
  - intros Hempty. rewrite Ho. clear Heq Hw Ho.
    open_world w. unfold withTracked, withCalls. open_handlers.
    rewrite lookup_insert_eq. simpl.
    destruct (core.GetBuild "" e) as [b0 err0]. simpl in *. subst b0.
    split_run.
    all: split; [done|]; split; [by count_calls|]; split; [by count_calls|].
    all: rewrite <- ?app_assoc; simpl; eexists; rewrite ?app_nil_r; reflexivity.
Qed.

End Entries.

(** ** Webhook registration *)

Section Hooks.
Context {E : Type} `{!core.App E}.
Variable net : Remote.

(** C8, as the code has it.  When the repository exists, [setupHooks]
    asks once for a webhook named ["web"], active, with JSON payloads, for
    seven events: the six of the specification and
    ["pull_request_review_event"].  Its URL is the address of the HTTP
    server followed by ["/cb/github/hook/"] and the application name, so
    two applications of the same name get the same URL.  An answer that
    says the hook already exists is handled as a success: the handler
    returns and logs no warning, which leaves the same world as an
    answer without error. *)
Theorem webhook_request appConfig (w : World E) c :
  client (g w) = Some c →
  ReposGet net c (Owner (config appConfig)) (Repo (config appConfig)) = None →
  let cfg := config appConfig in
  let hook := theHook net appConfig in
  let o := setupHooks net appConfig w in
  github.Events hook =
    ["pull_request"; "delete"; "issue_comment"; "pull_request_review";
     "pull_request_review_event"; "push"; "status"] ∧
  (∀ event, event ∈ github.Events hook ↔
            event ∈ specHookEvents ∨ event = "pull_request_review_event") ∧
  github.Config hook !! "url" =
    Some (GetHTTPServerURL net +:+ "/cb/github/hook/" +:+ app appConfig) ∧
  github.Config hook !! "content_type" = Some "json" ∧
  github.HookName hook = "web" ∧ github.Active hook = true ∧
  (∀ other, app other = app appConfig →
            hookURL net other = hookURL net appConfig) ∧
  returns o = true ∧
  calls (world_of o) =
    calls w ++ [CallReposGet (Owner cfg) (Repo cfg);
                CallCreateHook (Owner cfg) (Repo cfg) hook] ∧
  g (world_of o) = g w ∧
  match CreateHook net c (Owner cfg) (Repo cfg) hook with
  | None => logs (world_of o) = logs w
  | Some err =>
      if Contains err "Hook already exists" then logs (world_of o) = logs w
      else logs (world_of o) =
             logs w ++ [(Warn, "Could not create webhook, owner=%s, repo=%s: %s")]
  end.
Proof.
  intros Hcl Hrepo cfg hook o. subst cfg hook o.
  split; [done|]. split.
  { intros event. unfold theHook, hookEvents, specHookEvents. simpl.
    rewrite !elem_of_cons, !elem_of_nil. tauto. }
  split; [unfold theHook; simpl; by rewrite lookup_insert_ne, lookup_insert_eq|].
  split; [unfold theHook; simpl; by rewrite lookup_insert_eq|].
  split; [done|]. split; [done|].
  split; [intros other Heq; unfold hookURL; by rewrite Heq|].
  open_world w. open_handlers. rewrite Hcl. simpl. rewrite Hrepo. simpl.
  destruct (CreateHook net c _ _ _) as [err|]; simpl.
  - destruct (Contains err "Hook already exists"); simpl;
      rewrite <- ?app_assoc; by simpl.
  - rewrite <- ?app_assoc. by simpl.
Qed.

End Hooks.

(** ** The scenario, run *)


(** C7 at work: a ledger holding the build of pull request 99002 stays
    duplicate-free when another build is tracked and when its own build is
    untracked. *)
Lemma ledger_invariant_preserved_witness :
  ledger_ok (g (Scenario.world ∅ [Scenario.firstBuild Scenario.pull_abc]
                  RefEngine.empty)) ∧
  ledger_ok (g (world_of (trackBuild
                  (Scenario.firstBuild (Scenario.pr 99003 43 "master" "fed987"))
                  (Scenario.world ∅ [Scenario.firstBuild Scenario.pull_abc]
                     RefEngine.empty)))) ∧
  ledger_ok (g (world_of (untrackBuild
                  (Scenario.firstBuild Scenario.pull_abc)
                  (Scenario.world ∅ [Scenario.firstBuild Scenario.pull_abc]
                     RefEngine.empty)))).
Proof.
  assert (Hok : ledger_ok (g (Scenario.world ∅
                  [Scenario.firstBuild Scenario.pull_abc]
                  RefEngine.empty))).
  { unfold ledger_ok. simpl. apply NoDup_singleton. }
  destruct (ledger_invariant_preserved Scenario.github_ok
              Scenario.nonce _ Hok) as (Htrack & Huntrack & _).
  split; [exact Hok|]. split.
  - destruct (Htrack (Scenario.firstBuild (Scenario.pr 99003 43 "master" "fed987")))
      as (_ & Hok' & _).
    exact Hok'.
  - destruct (Huntrack (Scenario.firstBuild Scenario.pull_abc))
      as (_ & Hok' & _).
    exact Hok'.
Defined.


(** C3 at work: pull request 99002 is building [abc123] and is synchronized
    at [def456]; with cancel-on-new-commit there is one stop and one
    submission, without it no stop and one submission. *)
Lemma new_commit_supersedes_witness :
  stops (calls (world_of
    (updatePullRequest Scenario.github_ok (Scenario.ngbuild true false)
       (synchronize Scenario.pull_def)
       (Scenario.tracking Scenario.pull_abc false)))) = 1%nat ∧
  submissions (calls (world_of
    (updatePullRequest Scenario.github_ok (Scenario.ngbuild true false)
       (synchronize Scenario.pull_def)
       (Scenario.tracking Scenario.pull_abc false)))) = 1%nat ∧
  stops (calls (world_of
    (updatePullRequest Scenario.github_ok (Scenario.ngbuild false false)
       (synchronize Scenario.pull_def)
       (Scenario.tracking Scenario.pull_abc false)))) = 0%nat ∧
  submissions (calls (world_of
    (updatePullRequest Scenario.github_ok (Scenario.ngbuild false false)
       (synchronize Scenario.pull_def)
       (Scenario.tracking Scenario.pull_abc false)))) = 1%nat.
Proof.
  assert (Hst : trackedPullRequests (g (Scenario.tracking Scenario.pull_abc false))
                  !! Itoa (github.ID Scenario.pull_def) =
                Some (Scenario.building Scenario.pull_abc)).
  { vm_compute. reflexivity. }
  assert (Hget : core.GetBuild (currentBuild (Scenario.building Scenario.pull_abc))
                   (eng (Scenario.tracking Scenario.pull_abc false)) =
                 (Some (Scenario.firstBuild Scenario.pull_abc), None)).
  { vm_compute. reflexivity. }
  assert (Hhash : core.GetMetadata "github:HeadHash"
                    (core.Config (Scenario.firstBuild Scenario.pull_abc)) ≠
                  github.SHA (github.Head Scenario.pull_def)).
  { vm_compute. discriminate. }
  destruct (new_commit_supersedes Scenario.github_ok (Scenario.ngbuild true false)
              Scenario.pull_def _ _ _ _ Hst Hget Hhash) as (_ & _ & Hstop & Hsub).
  destruct (new_commit_supersedes Scenario.github_ok (Scenario.ngbuild false false)
              Scenario.pull_def _ _ _ _ Hst Hget Hhash) as (_ & _ & Hstop' & Hsub').
  split; [exact Hstop|]. split; [exact Hsub|]. split; [exact Hstop'|exact Hsub'].
Defined.

(** C4 at work: closing pull request 99002 removes its entry with and
    without cancel-on-new-commit; the build is stopped only with it. *)
Lemma closed_removes_entry_witness :
  trackedPullRequests (g (world_of
    (closedPullRequest (Scenario.ngbuild false false) (closed Scenario.pull_abc)
       (Scenario.tracking Scenario.pull_abc false)))) !! "99002" = None ∧
  calls (world_of
    (closedPullRequest (Scenario.ngbuild false false) (closed Scenario.pull_abc)
       (Scenario.tracking Scenario.pull_abc false))) = [CallGetBuild "99002/0"] ∧
  calls (world_of
    (closedPullRequest (Scenario.ngbuild true false) (closed Scenario.pull_abc)
       (Scenario.tracking Scenario.pull_abc false))) =
    [CallGetBuild "99002/0"; CallStop (Scenario.firstBuild Scenario.pull_abc)].
Proof.
  destruct (closed_removes_entry (Scenario.ngbuild false false) Scenario.pull_abc
              (Scenario.tracking Scenario.pull_abc false)) as [_ Hoff].
  destruct (closed_removes_entry (Scenario.ngbuild true false) Scenario.pull_abc
              (Scenario.tracking Scenario.pull_abc false)) as [_ Hon].
  vm_compute in Hoff, Hon.
  destruct Hoff as (_ & Hnone & Hcalls & _). destruct Hon as (_ & _ & Hcalls' & _).
  split; [|split].
  - vm_compute. exact Hnone.
  - vm_compute. exact Hcalls.
  - vm_compute. exact Hcalls'.
Defined.

(** C5 at work: a callback with a wrong [state] leaves the world as it was,
    one with a code the endpoint refuses installs no client, and one with
    the right [state] and code installs the client of the token. *)
Lemma oauth_callback_gate_witness :
  world_of (handleGithubAuth Scenario.github_ok Scenario.nonce "1000421517099999" "4d2f"
              Scenario.unauthenticated) = Scenario.unauthenticated ∧
  client (g (world_of (handleGithubAuth Scenario.github_ok Scenario.nonce
                         Scenario.nonce "0000" Scenario.unauthenticated))) = None ∧
  client (g (world_of (handleGithubAuth Scenario.github_ok Scenario.nonce
                         Scenario.nonce "4d2f" Scenario.unauthenticated))) =
    Some Scenario.apiClient.
Proof.
  destruct (oauth_callback_gate Scenario.github_ok Scenario.nonce
              "1000421517099999" "4d2f" Scenario.unauthenticated)
    as (_ & Hstate & _).
  destruct (oauth_callback_gate Scenario.github_ok Scenario.nonce
              Scenario.nonce "0000" Scenario.unauthenticated)
    as (_ & _ & Hfail & _).
  destruct (oauth_callback_gate Scenario.github_ok Scenario.nonce
              Scenario.nonce "4d2f" Scenario.unauthenticated)
    as (_ & _ & _ & Hgood & _).
  split; [|split].
  - apply Hstate. vm_compute. discriminate.
  - destruct (Hfail "bad_verification_code" eq_refl eq_refl) as [Hg _].
    rewrite Hg. reflexivity.
  - destruct (Hgood Scenario.token eq_refl eq_refl) as [Hclient _].
    exact Hclient.
Defined.

(** C6 at work: pull request 99002 is building [abc123] and is built again
    at [def456]; when the engine refuses, the entry keeps the first token,
    and when it accepts, the entry gets the new one. *)
Lemma submission_outcome_witness :
  (currentBuild <$>
     trackedPullRequests (g (world_of
       (buildPullRequest (Scenario.ngbuild true false) Scenario.pull_def
          (Scenario.tracking Scenario.pull_abc true)))) !! "99002") =
    Some "99002/0" ∧
  (currentBuild <$>
     trackedPullRequests (g (world_of
       (buildPullRequest (Scenario.ngbuild true false) Scenario.pull_def
          (Scenario.tracking Scenario.pull_abc false)))) !! "99002") =
    Some "99002/1".
Proof.
  assert (Hnew : ∀ refusing,
    alreadyBuilt Scenario.pull_def
      (default {| pull := Scenario.pull_def; currentBuild := ""; mergeOnPass := false |}
         (trackedPullRequests (g (Scenario.tracking Scenario.pull_abc refusing))
            !! Itoa (github.ID Scenario.pull_def)))
      (eng (Scenario.tracking Scenario.pull_abc refusing)) = false).
  { intros []; vm_compute; reflexivity. }
  destruct (submission_outcome (Scenario.ngbuild true false) Scenario.pull_def
              (Scenario.tracking Scenario.pull_abc true) (Hnew true))
    as (_ & _ & _ & Hfail & _).
  destruct (submission_outcome (Scenario.ngbuild true false) Scenario.pull_def
              (Scenario.tracking Scenario.pull_abc false) (Hnew false))
    as (_ & _ & _ & _ & Hgood).
  split.
  - assert (Hrefused : (core.NewBuild (Itoa (github.ID Scenario.pull_def))
               (pullBuildConfig Scenario.pull_def)
               (engineAtSubmit (Scenario.ngbuild true false)
                  (default {| pull := Scenario.pull_def; currentBuild := "";
                              mergeOnPass := false |}
                     (trackedPullRequests (g (Scenario.tracking Scenario.pull_abc true))
                        !! Itoa (github.ID Scenario.pull_def)))
                  (eng (Scenario.tracking Scenario.pull_abc true)))).1.2 ≠ None).
    { vm_compute. discriminate. }
    destruct (Hfail Hrefused) as [_ Hkept]. vm_compute in Hkept. vm_compute.
    exact Hkept.
  - assert (Haccepted : (core.NewBuild (Itoa (github.ID Scenario.pull_def))
               (pullBuildConfig Scenario.pull_def)
               (engineAtSubmit (Scenario.ngbuild true false)
                  (default {| pull := Scenario.pull_def; currentBuild := "";
                              mergeOnPass := false |}
                     (trackedPullRequests (g (Scenario.tracking Scenario.pull_abc false))
                        !! Itoa (github.ID Scenario.pull_def)))
                  (eng (Scenario.tracking Scenario.pull_abc false)))).1.2 = None).
    { vm_compute. reflexivity. }
    specialize (Hgood Haccepted). vm_compute in Hgood.
    destruct Hgood as [_ Hstored]. vm_compute. exact Hstored.
Defined.

(** C1 at work, for each reason: the author is no collaborator, the base
    branch [release] is ignored, the collaborator query fails. *)
Lemma gate_drops_event_witness :
  g (world_of (trackPullRequest (Scenario.provider (false, None) None)
                 (Scenario.ngbuild true false) (prEvent "opened" Scenario.pull_abc)
                 (Scenario.world ∅ [] RefEngine.empty))) =
    g (Scenario.world ∅ [] RefEngine.empty) ∧
  submissions (calls (world_of
    (trackPullRequest Scenario.github_ok
       (Scenario.ngbuild true false) (prEvent "opened" Scenario.pull_release)
       (Scenario.world ∅ [] RefEngine.empty)))) = 0%nat ∧
  submissions (calls (world_of
    (updatePullRequest (Scenario.provider (false, Some "502 Bad Gateway") None)
       (Scenario.ngbuild true false) (prEvent "synchronize" Scenario.pull_abc)
       (Scenario.world ∅ [] RefEngine.empty)))) = 0%nat.
Proof.
  split; [|split].
  - assert (Hgate : gateRejects (Scenario.provider (false, None) None)
                      (Scenario.ngbuild true false) Scenario.pull_abc
                      (client (g (Scenario.world ∅ [] RefEngine.empty)))).
    { right. left. exists Scenario.apiClient. split; reflexivity. }
    destruct (gate_drops_event (Scenario.provider (false, None) None)
                (Scenario.ngbuild true false) "opened" Scenario.pull_abc
                (Scenario.world ∅ [] RefEngine.empty) Hgate) as [(Hg & _) _].
    exact Hg.
  - assert (Hgate : gateRejects Scenario.github_ok
                      (Scenario.ngbuild true false) Scenario.pull_release
                      (client (g (Scenario.world ∅ [] RefEngine.empty)))).
    { right. right. reflexivity. }
    destruct (gate_drops_event Scenario.github_ok
                (Scenario.ngbuild true false) "opened" Scenario.pull_release
                (Scenario.world ∅ [] RefEngine.empty) Hgate) as [(_ & _ & Hsub) _].
    exact Hsub.
  - assert (Hgate : gateRejects (Scenario.provider (false, Some "502 Bad Gateway") None)
                      (Scenario.ngbuild true false) Scenario.pull_abc
                      (client (g (Scenario.world ∅ [] RefEngine.empty)))).
    { left. exists Scenario.apiClient. split; [reflexivity|discriminate]. }
    destruct (gate_drops_event (Scenario.provider (false, Some "502 Bad Gateway") None)
                (Scenario.ngbuild true false) "synchronize" Scenario.pull_abc
                (Scenario.world ∅ [] RefEngine.empty) Hgate) as (_ & Hsync & _).
    assert (Hnone : trackedPullRequests (g (Scenario.world ∅ [] RefEngine.empty))
                      !! Itoa (github.ID Scenario.pull_abc) = None).
    { vm_compute. reflexivity. }
    destruct (Hsync Hnone) as (_ & _ & Hsub). exact Hsub.
Defined.

(** C1, against the claim as stated.  A synchronize event for a pull request
    that is already tracked goes from [updatePullRequest] straight to
    [buildPullRequest].  Here pull request 99001 was opened against [master]
    and is tracked with a build; its base is now the ignored branch
    [release], the collaborator query would fail and report no
    collaborator; and still the handler submits a second build and records
    its token in the entry. *)
Lemma tracked_synchronize_is_not_gated :
  gateRejects (Scenario.provider (false, Some "502 Bad Gateway") None)
    (Scenario.ngbuild false false) Scenario.pull_release
    (client (g (Scenario.tracking (Scenario.pr 99001 41 "master" "c0ffee") false))) ∧
  isIgnoredBranch (github.Ref (github.Base Scenario.pull_release))
    (IgnoredBranches (config (Scenario.ngbuild false false))) = true ∧
  submissions (calls (Scenario.tracking (Scenario.pr 99001 41 "master" "c0ffee") false)) =
    0%nat ∧
  submissions (calls (world_of
    (updatePullRequest (Scenario.provider (false, Some "502 Bad Gateway") None)
       (Scenario.ngbuild false false) (synchronize Scenario.pull_release)
       (Scenario.tracking (Scenario.pr 99001 41 "master" "c0ffee") false)))) = 1%nat ∧
  (currentBuild <$>
     trackedPullRequests (g (Scenario.tracking (Scenario.pr 99001 41 "master" "c0ffee") false))
       !! "99001") = Some "99001/0" ∧
  (currentBuild <$>
     trackedPullRequests (g (world_of
       (updatePullRequest (Scenario.provider (false, Some "502 Bad Gateway") None)
          (Scenario.ngbuild false false) (synchronize Scenario.pull_release)
          (Scenario.tracking (Scenario.pr 99001 41 "master" "c0ffee") false))))
       !! "99001") = Some "99001/1".
Proof.
  split_and!.
  - left. exists Scenario.apiClient. split; [reflexivity|discriminate].
  - reflexivity.
  - reflexivity.
  - vm_compute. reflexivity.
  - vm_compute. reflexivity.
  - vm_compute. reflexivity.
Qed.

(** C9, against the claim as stated.  The application is configured with
    merge-on-pass; the entry that an opened event creates has the flag
    unset. *)
Lemma mergeOnPass_is_not_copied :
  MergeOnPass (config (Scenario.ngbuild false true)) = true ∧
  trackedPullRequests (g (Scenario.world ∅ [] RefEngine.empty)) !! "99002" = None ∧
  (mergeOnPass <$>
     trackedPullRequests (g (world_of
       (trackPullRequest Scenario.github_ok (Scenario.ngbuild false true)
          (prEvent "opened" Scenario.pull_abc)
          (Scenario.world ∅ [] RefEngine.empty)))) !! "99002") = Some false.
Proof.
  split_and!.
  - reflexivity.
  - vm_compute. reflexivity.
  - vm_compute. reflexivity.
Qed.

(** C9 at work: the entry created for pull request 99002 under an
    application with merge-on-pass. *)
Lemma created_entry_mergeOnPass_false_witness :
  MergeOnPass (config (Scenario.ngbuild false true)) = true ∧
  trackedPullRequests (g (world_of
    (trackPullRequest Scenario.github_ok (Scenario.ngbuild false true)
       (prEvent "opened" Scenario.pull_abc)
       (Scenario.world ∅ [] RefEngine.empty)))) !! "99002" =
    Some (Scenario.building Scenario.pull_abc) ∧
  mergeOnPass (Scenario.building Scenario.pull_abc) = false.
Proof.
  assert (Hentry : trackedPullRequests (g (world_of
    (trackPullRequest Scenario.github_ok (Scenario.ngbuild false true)
       (prEvent "opened" Scenario.pull_abc)
       (Scenario.world ∅ [] RefEngine.empty)))) !! "99002" =
    Some (Scenario.building Scenario.pull_abc)).
  { vm_compute. reflexivity. }
  assert (Hnone : trackedPullRequests (g (Scenario.world ∅ [] RefEngine.empty))
                    !! "99002" = None).
  { vm_compute. reflexivity. }
  split; [reflexivity|]. split; [exact Hentry|].
  destruct (created_entry_mergeOnPass_false Scenario.github_ok
              (Scenario.ngbuild false true) "opened" Scenario.pull_abc
              (Scenario.world ∅ [] RefEngine.empty) "99002"
              (Scenario.building Scenario.pull_abc) Hnone) as (_ & Htrack & _).
  exact (Htrack Hentry).
Defined.

(** C10 at work: pull request 99002 is building [abc123], and the build is
    live with that head hash; a reopened event for the same head stops
    nothing and submits again. *)
Lemma retrack_discards_token_witness :
  core.GetMetadata "github:HeadHash"
    (core.Config (Scenario.firstBuild Scenario.pull_abc)) =
    github.SHA (github.Head Scenario.pull_abc) ∧
  stops (calls (world_of
    (trackPullRequest Scenario.github_ok (Scenario.ngbuild true false)
       (prEvent "reopened" Scenario.pull_abc)
       (Scenario.tracking Scenario.pull_abc false)))) = 0%nat ∧
  submissions (calls (world_of
    (trackPullRequest Scenario.github_ok (Scenario.ngbuild true false)
       (prEvent "reopened" Scenario.pull_abc)
       (Scenario.tracking Scenario.pull_abc false)))) = 1%nat.
Proof.
  assert (Hprior : trackedPullRequests (g (Scenario.tracking Scenario.pull_abc false))
                     !! Itoa (github.ID Scenario.pull_abc) =
                   Some (Scenario.building Scenario.pull_abc)).
  { vm_compute. reflexivity. }
  destruct (retrack_discards_token Scenario.github_ok (Scenario.ngbuild true false)
              "reopened" Scenario.pull_abc (Scenario.tracking Scenario.pull_abc false)
              Scenario.apiClient (Scenario.building Scenario.pull_abc)
              eq_refl eq_refl eq_refl Hprior) as (_ & _ & Hbypass).
  destruct (Hbypass eq_refl) as (_ & Hstops & Hsub & _).
  split; [vm_compute; reflexivity|]. split; [exact Hstops|exact Hsub].
Defined.

(** C8, against the claim as stated.  The webhook that [setupHooks] asks for
    lists an event that is not among the six. *)
Lemma webhook_has_a_seventh_event :
  ∃ hook,
    calls (world_of (setupHooks Scenario.github_ok (Scenario.ngbuild false false)
                       (Scenario.world ∅ [] RefEngine.empty))) =
      [CallReposGet "watchly" "ngbuild"; CallCreateHook "watchly" "ngbuild" hook] ∧
    "pull_request_review_event" ∈ github.Events hook ∧
    ("pull_request_review_event" ∉ specHookEvents) ∧
    length (github.Events hook) = 7%nat ∧ length specHookEvents = 6%nat.
Proof.
  exists (theHook Scenario.github_ok (Scenario.ngbuild false false)).
  split_and!.
  - reflexivity.
  - unfold theHook, hookEvents. simpl. rewrite !elem_of_cons. tauto.
  - unfold specHookEvents. rewrite !not_elem_of_cons.
    split_and!; try discriminate. apply not_elem_of_nil.
  - reflexivity.
  - reflexivity.
Qed.

(** C8 at work: an answer that the hook already exists logs nothing,
    another error logs one warning. *)
Lemma webhook_request_witness :
  logs (world_of
    (setupHooks (Scenario.provider (true, None)
                   (Some "422 Validation Failed: Hook already exists on this repository"))
       (Scenario.ngbuild false false)
       (Scenario.world ∅ [] RefEngine.empty))) = [] ∧
  logs (world_of
    (setupHooks (Scenario.provider (true, None) (Some "404 Not Found"))
       (Scenario.ngbuild false false)
       (Scenario.world ∅ [] RefEngine.empty))) =
    [(Warn, "Could not create webhook, owner=%s, repo=%s: %s")].
Proof.
  destruct (webhook_request
              (Scenario.provider (true, None)
                 (Some "422 Validation Failed: Hook already exists on this repository"))
              (Scenario.ngbuild false false) (Scenario.world ∅ [] RefEngine.empty)
              Scenario.apiClient eq_refl eq_refl)
    as (_ & _ & _ & _ & _ & _ & _ & _ & _ & _ & Hexists).
  destruct (webhook_request
              (Scenario.provider (true, None) (Some "404 Not Found"))
              (Scenario.ngbuild false false) (Scenario.world ∅ [] RefEngine.empty)
              Scenario.apiClient eq_refl eq_refl)
    as (_ & _ & _ & _ & _ & _ & _ & _ & _ & _ & Hother).
  split; [exact Hexists|exact Hother].
Defined.


(** * Further properties *)

(** ** The tracker, event by event *)

Section TrackerRuns.
Context {E : Type} `{!core.App E}.
Variable net : Remote.

(** One run of [buildPullRequest], in one place: it returns; it writes no
    entry but the one of the pull request, which keeps its snapshot and its
    flag; the token it records is the old one or one the engine resolves;
    its calls are the tracker's. *)
Lemma buildPullRequest_run app pr (w : World E) :
  let pullID := Itoa (github.ID pr) in
  let was := default (freshStatus pr) (trackedPullRequests (g w) !! pullID) in
  let o := buildPullRequest app pr w in
  returns o = true ∧
  (∀ key, key ≠ pullID →
     trackedPullRequests (g (world_of o)) !! key = trackedPullRequests (g w) !! key) ∧
  (∃ token,
     trackedPullRequests (g (world_of o)) !! pullID =
       Some {| pull := pull was; currentBuild := token;
               mergeOnPass := mergeOnPass was |} ∧
     (token = currentBuild was ∨
      ∃ build, core.GetBuild token (eng (world_of o)) = (Some build, None))) ∧
  (∃ cs, calls (world_of o) = calls w ++ cs ∧ trackerCalls app pr cs).
Proof.
  intros pullID was o. subst pullID was o. unfold trackerCalls, freshStatus.
  open_world w. open_handlers. split_run.
  all: split; [done|].
  all: split; [intros key Hkey; by rewrite ?lookup_insert_ne by done|].
  all: split;
    [|rewrite <- ?app_assoc; simpl; eexists; split; [reflexivity|];
      split_and!; [repeat constructor| | |intros ?]; by (compute; lia)].
  all: rewrite ?lookup_insert_eq.
  all: first
    [ by eexists; split; [reflexivity|]; right; eexists; eassumption
    | by exists ""; split; [reflexivity|]; left
    | match goal with
      | Hst : _ !! _ = Some ?p |- _ =>
          exists (currentBuild p); rewrite Hst; destruct p; by split; [|left]
      end ].
Qed.

(** One run of [trackPullRequest] on an event with a payload: the event is
    dropped, after at most the collaborator query, or the gate lets it
    through and [buildPullRequest] runs on a fresh entry. *)
Lemma trackPullRequest_run app action pr (w : World E) :
  let o := trackPullRequest net app (prEvent action pr) w in
  (g (world_of o) = g w ∧ eng (world_of o) = eng w ∧ cache (world_of o) = cache w ∧
   (calls (world_of o) = calls w ∨
    calls (world_of o) = calls w ++ [collaboratorQuery pr])) ∨
  (∃ c, client (g w) = Some c ∧
        collaboratorAnswer net c pr = (true, None) ∧
        isIgnoredBranch (github.Ref (github.Base pr))
          (IgnoredBranches (config app)) = false ∧
        o = buildPullRequest app pr (admitted pr w)).
Proof.
  intros o. subst o.
  unfold trackPullRequest, prEvent, admitted, withCalls, withTracked,
    collaboratorAnswer, collaboratorQuery.
  unfold_prims. simpl.
  destruct (client (g w)) as [c|] eqn:Hc; simpl; [|left; split_and!; [done..|by left]].
  destruct (IsCollaborator net c _ _ _) as [isC [err|]] eqn:Hq; simpl;
    [left; split_and!; [done..|by right]|].
  destruct isC; simpl; [|left; split_and!; [done..|by right]].
  destruct (isIgnoredBranch _ _) eqn:Hig; simpl; [left; split_and!; [done..|by right]|].
  right. exists c. split_and!; try done. by rewrite Hc.
Qed.

(** One run of [updatePullRequest] on an event with a payload: what
    [buildPullRequest] does when the identifier is tracked, and what
    [trackPullRequest] does after one warning when it is not. *)
Lemma updatePullRequest_run app action pr (w : World E) :
  updatePullRequest net app (prEvent action pr) w =
  match trackedPullRequests (g w) !! Itoa (github.ID pr) with
  | Some _ => buildPullRequest app pr w
  | None =>
      trackPullRequest net app (prEvent action pr)
        (logged Warn "event on unknown/ignored pull request: %s" w)
  end.
Proof.
  unfold updatePullRequest, prEvent, logged. unfold_prims. simpl.
  by destruct (trackedPullRequests (g w) !! Itoa (github.ID pr)).
Qed.

End TrackerRuns.

Section TrackerFacts.
Context {E : Type} `{!core.App E}.
Variable net : Remote.

(** No handler of an event for one pull request writes under another
    key. *)
Lemma tracker_other_keys app action pr key (w : World E) :
  key ≠ Itoa (github.ID pr) →
  trackedPullRequests (g (world_of (buildPullRequest app pr w))) !! key =
    trackedPullRequests (g w) !! key ∧
  trackedPullRequests (g (world_of (trackPullRequest net app (prEvent action pr) w))) !! key =
    trackedPullRequests (g w) !! key ∧
  trackedPullRequests (g (world_of (updatePullRequest net app (prEvent action pr) w))) !! key =
    trackedPullRequests (g w) !! key ∧
  trackedPullRequests (g (world_of (closedPullRequest app (prEvent action pr) w))) !! key =
    trackedPullRequests (g w) !! key.
Proof.
  intros Hkey.
  assert (Hbuild : ∀ w0 : World E,
    trackedPullRequests (g (world_of (buildPullRequest app pr w0))) !! key =
    trackedPullRequests (g w0) !! key).
  { intros w0. destruct (buildPullRequest_run app pr w0) as (_ & Hother & _).
    by apply Hother. }
  assert (Htrack : ∀ w0 : World E,
    trackedPullRequests (g (world_of (trackPullRequest net app (prEvent action pr) w0))) !! key =
    trackedPullRequests (g w0) !! key).
  { intros w0.
    destruct (trackPullRequest_run net app action pr w0)
      as [(-> & _)|(c & _ & _ & _ & ->)]; [done|].
    rewrite Hbuild. simpl. by rewrite lookup_insert_ne. }
  split_and!; [done..| |].
  - rewrite updatePullRequest_run.
    destruct (trackedPullRequests (g w) !! Itoa (github.ID pr)); [done|].
    by rewrite Htrack.
  - open_world w. unfold prEvent. open_handlers. split_run; try done.
    all: by rewrite lookup_delete_ne.
Qed.

End TrackerFacts.

Section TrackerProperties.
Context {E : Type} `{!core.App E}.
Variable net : Remote.

(** X1. An event for one pull request never changes the entry of another:
    after [trackPullRequest], [updatePullRequest], [buildPullRequest] or
    [closedPullRequest] for a pull request, the entry of every pull request
    with another identifier is what it was. *)
Theorem other_pull_requests_untouched app action pr other (w : World E) :
  github.ID other ≠ github.ID pr →
  entryOf other (world_of (trackPullRequest net app (prEvent action pr) w)) = entryOf other w ∧
  entryOf other (world_of (updatePullRequest net app (prEvent action pr) w)) = entryOf other w ∧
  entryOf other (world_of (buildPullRequest app pr w)) = entryOf other w ∧
  entryOf other (world_of (closedPullRequest app (prEvent action pr) w)) = entryOf other w.
Proof.
  intros Hid.
  assert (Hkey : Itoa (github.ID other) ≠ Itoa (github.ID pr)).
  { intros Heq. apply Hid. unfold Itoa in Heq. by apply (inj pretty) in Heq. }
  destruct (tracker_other_keys net app action pr _ w Hkey) as (Hb & Ht & Hu & Hc).
  unfold entryOf. by split_and!.
Qed.

(** X2. A synchronize event never refreshes what is stored about a tracked
    pull request: after [updatePullRequest] (and after [buildPullRequest])
    the entry still has the snapshot and the flag it had, whatever pull
    request the event carries under that identifier; only the token may
    differ, and a token that differs is one that the engine resolves
    without error in the state the handler leaves. *)
Theorem synchronize_keeps_snapshot app action pr (w : World E) status :
  entryOf pr w = Some status →
  (∃ token,
     entryOf pr (world_of (updatePullRequest net app (prEvent action pr) w)) =
       Some {| pull := pull status; currentBuild := token;
               mergeOnPass := mergeOnPass status |} ∧
     (token = currentBuild status ∨
      ∃ build,
        core.GetBuild token
          (eng (world_of (updatePullRequest net app (prEvent action pr) w))) =
        (Some build, None))) ∧
  (∃ token,
     entryOf pr (world_of (buildPullRequest app pr w)) =
       Some {| pull := pull status; currentBuild := token;
               mergeOnPass := mergeOnPass status |} ∧
     (token = currentBuild status ∨
      ∃ build,
        core.GetBuild token (eng (world_of (buildPullRequest app pr w))) =
        (Some build, None))).
Proof.
  unfold entryOf. intros Hst.
  destruct (buildPullRequest_run app pr w) as (_ & _ & Hentry & _).
  rewrite Hst in Hentry. simpl in Hentry.
  split; [|exact Hentry].
  by rewrite updatePullRequest_run, Hst.
Qed.

(** What the three handlers that may build add to the trace. *)
Lemma tracker_traces app action pr (w : World E) :
  trackerTrace app pr w (world_of (trackPullRequest net app (prEvent action pr) w)) ∧
  trackerTrace app pr w (world_of (updatePullRequest net app (prEvent action pr) w)) ∧
  trackerTrace app pr w (world_of (buildPullRequest app pr w)).
Proof.
  assert (Hbuild : ∀ w0 : World E,
    trackerTrace app pr w0 (world_of (buildPullRequest app pr w0))).
  { intros w0. by destruct (buildPullRequest_run app pr w0) as (_ & _ & _ & Hcs). }
  assert (Htrack : ∀ (w0 : World E) line,
    trackerTrace app pr w0
      (world_of (trackPullRequest net app (prEvent action pr)
                   (mkWorld (g w0) (eng w0) (cache w0) (calls w0) line)))).
  { intros w0 line.
    destruct (trackPullRequest_run net app action pr
                (mkWorld (g w0) (eng w0) (cache w0) (calls w0) line))
      as [(_ & _ & _ & [Hcs|Hcs])|(c & _ & _ & _ & ->)]; simpl in *.
    - exists []. split; [by rewrite app_nil_r|].
      unfold trackerCalls. split_and!; [constructor|compute; lia..|done].
    - exists [collaboratorQuery pr]. split; [done|].
      unfold trackerCalls. split_and!; [by repeat constructor|compute; lia..|done].
    - destruct (buildPullRequest_run app pr
                  (admitted pr (mkWorld (g w0) (eng w0) (cache w0) (calls w0) line)))
        as (_ & _ & _ & cs & Hcs & Hall & Hsub & Hstop & Hoff).
      exists (collaboratorQuery pr :: cs). rewrite Hcs. simpl.
      split; [by rewrite <- app_assoc|].
      unfold trackerCalls. split_and!; [by constructor|done..]. }
  split_and!.
  - specialize (Htrack w (logs w)). by destruct w.
  - rewrite updatePullRequest_run.
    destruct (trackedPullRequests (g w) !! Itoa (github.ID pr)); [apply Hbuild|].
    apply Htrack.
  - apply Hbuild.
Qed.

(** X3. One event costs the engine at most one submission and one stop:
    [trackPullRequest], [updatePullRequest] and [buildPullRequest] each add
    at most one submission and at most one stop to the trace, and no stop
    at all without cancel-on-new-commit. *)
Theorem one_event_one_submission app action pr (w : World E) :
  engineCost app w (world_of (trackPullRequest net app (prEvent action pr) w)) ∧
  engineCost app w (world_of (updatePullRequest net app (prEvent action pr) w)) ∧
  engineCost app w (world_of (buildPullRequest app pr w)).
Proof.
  assert (Hcost : ∀ w' : World E, trackerTrace app pr w w' → engineCost app w w').
  { intros w' (cs & Hcs & _ & Hsub & Hstop & Hoff). unfold engineCost.
    rewrite Hcs, submissions_app, stops_app. split_and!; try lia.
    intros Hcancel. rewrite (Hoff Hcancel). lia. }
  destruct (tracker_traces app action pr w) as (Ht & Hu & Hb).
  split_and!; by apply Hcost.
Qed.

End TrackerProperties.

Section TrackerEdges.
Context {E : Type} `{!core.App E}.
Variable net : Remote.

(** [closedPullRequest] on an event with a payload returns, and what it
    leaves tracked is the map without the identifier. *)
Lemma closedPullRequest_deletes app action pr (w : World E) :
  let o := closedPullRequest app (prEvent action pr) w in
  returns o = true ∧
  trackedPullRequests (g (world_of o)) =
    delete (Itoa (github.ID pr)) (trackedPullRequests (g w)).
Proof.
  intros o. subst o. open_world w. unfold prEvent. open_handlers.
  split_run; split; try done.
  symmetry. by apply delete_id.
Qed.

(** X4. Opening and then closing a pull request that was not tracked
    leaves the tracker as it was: whatever the gate and the engine
    answered in between, [trackedPullRequests] after [trackPullRequest]
    followed by [closedPullRequest] is the map before. *)
Theorem open_then_close_restores_tracker app pr (w : World E) :
  entryOf pr w = None →
  let opened := world_of (trackPullRequest net app (prEvent "opened" pr) w) in
  let o := closedPullRequest app (prEvent "closed" pr) opened in
  returns o = true ∧
  trackedPullRequests (g (world_of o)) = trackedPullRequests (g w).
Proof.
  intros Hnone opened o. unfold entryOf in Hnone.
  destruct (closedPullRequest_deletes app "closed" pr opened) as [Hret Hmap].
  split; [done|]. subst o. rewrite Hmap. apply map_eq. intros key.
  destruct (decide (key = Itoa (github.ID pr))) as [->|Hkey].
  - by rewrite lookup_delete_eq.
  - rewrite lookup_delete_ne by done. subst opened.
    by destruct (tracker_other_keys net app "opened" pr key w Hkey) as (_ & -> & _).
Qed.

(** X5. When the handlers panic on an event whose pull request, when it
    has one, is well formed: every pointer field that the handlers
    dereference is set, which is what [github.PullRequest] holds.  On
    such events [closedPullRequest] panics exactly when the event has no
    pull request; [trackPullRequest] tests for that and panics exactly
    when the event has a pull request and no client is installed;
    [updatePullRequest] panics exactly when the event has no pull request,
    or its identifier is not tracked and no client is installed.  On such
    events no answer of the provider or of the engine makes a handler
    panic.  (A pull request that lacks a field makes the Go handler panic
    where it reads the field; such payloads are outside this statement.) *)
Theorem handlers_panic_exactly_when app (event : github.PullRequestEvent)
    (w : World E) :
  (returns (closedPullRequest app event w) = false ↔
   github.PullRequest' event = None) ∧
  (returns (trackPullRequest net app event w) = false ↔
   github.PullRequest' event ≠ None ∧ client (g w) = None) ∧
  (returns (updatePullRequest net app event w) = false ↔
   match github.PullRequest' event with
   | None => True
   | Some pr => entryOf pr w = None ∧ client (g w) = None
   end).
Proof.
  assert (Htrack : ∀ action pr (w0 : World E),
    returns (trackPullRequest net app (prEvent action pr) w0) = false ↔
    client (g w0) = None).
  { intros action pr w0.
    destruct (client (g w0)) as [c|] eqn:Hc.
    - split; [|done].
      unfold trackPullRequest, prEvent. unfold_prims. simpl.
      rewrite Hc. simpl.
      destruct (IsCollaborator net c _ _ _) as [[] [err|]]; simpl; try done.
      destruct (isIgnoredBranch _ _); simpl; [done|].
      match goal with
      | |- context [buildPullRequest app pr ?w1] =>
          destruct (buildPullRequest_run app pr w1) as (Hret & _)
      end.
      by rewrite Hret.
    - split; [done|]. intros _.
      unfold trackPullRequest, prEvent. unfold_prims. simpl. by rewrite Hc. }
  destruct event as [action [pr|]].
  - fold (prEvent action pr). simpl. split_and!.
    + destruct (closedPullRequest_deletes app action pr w) as [Hret _].
      rewrite Hret. by split.
    + rewrite Htrack. split; [by intros ?|by intros [_ ?]].
    + rewrite updatePullRequest_run. unfold entryOf.
      destruct (trackedPullRequests (g w) !! Itoa (github.ID pr)).
      * destruct (buildPullRequest_run app pr w) as (Hret & _).
        rewrite Hret. by split; [|intros [? _]].
      * rewrite Htrack. simpl. by split; [|intros [_ ?]].
  - simpl. by split_and!; split; try done; intros [? _].
Qed.

(** X6. Before a client is installed, an opened event with a payload
    panics on the nil client before anything is asked or written; so does
    a synchronize event for an identifier that is not tracked, after its
    warning; and so does [setupHooks]. *)
Theorem no_client_no_tracking app action pr (w : World E) :
  client (g w) = None →
  trackPullRequest net app (prEvent action pr) w = Panic w ∧
  (entryOf pr w = None →
   updatePullRequest net app (prEvent action pr) w =
     Panic (logged Warn "event on unknown/ignored pull request: %s" w)) ∧
  setupHooks net app w = Panic w.
Proof.
  unfold entryOf. intros Hnil.
  assert (Htrack : ∀ w0 : World E, client (g w0) = None →
    trackPullRequest net app (prEvent action pr) w0 = Panic w0).
  { intros w0 Hc. unfold trackPullRequest, prEvent. unfold_prims. simpl.
    by rewrite Hc. }
  split_and!.
  - by apply Htrack.
  - intros Hnone. rewrite updatePullRequest_run, Hnone. by apply Htrack.
  - unfold setupHooks. unfold_prims. simpl. by rewrite Hnil.
Qed.

(** A settled pull request stays settled through a synchronize event for
    the same identifier and head commit, which changes nothing but the
    trace of lookups and the log. *)
Lemma settled_synchronize app pr pr' (w : World E) :
  github.ID pr' = github.ID pr →
  github.SHA (github.Head pr') = github.SHA (github.Head pr) →
  settled pr w →
  let o := updatePullRequest net app (synchronize pr') w in
  returns o = true ∧ g (world_of o) = g w ∧ eng (world_of o) = eng w ∧
  cache (world_of o) = cache w ∧
  submissions (calls (world_of o)) = submissions (calls w) ∧
  stops (calls (world_of o)) = stops (calls w).
Proof.
  intros Hid Hsha (status & build & err & Hst & Hget & Hhash) o. subst o.
  unfold entryOf in Hst. rewrite <- Hid in Hst. rewrite <- Hsha in Hhash.
  unfold synchronize. fold (prEvent "synchronize" pr').
  rewrite updatePullRequest_run, Hst.
  rewrite (buildPullRequest_duplicate app pr' w status build err Hst Hget Hhash).
  simpl. split_and!; try done; by count_calls.
Qed.

(** X7. Duplicate suppression holds for any number of deliveries: once
    the entry's token resolves to a build of the head commit, every further
    synchronize event for that identifier and head commit, however many
    are delivered, is handled without a submission or a stop and leaves the
    tracker and the engine as they were. *)
Theorem duplicates_never_build app pr (events : list github.PullRequest) (w : World E) :
  settled pr w →
  Forall (λ pr', github.ID pr' = github.ID pr ∧
                 github.SHA (github.Head pr') = github.SHA (github.Head pr)) events →
  let o := deliver (updatePullRequest net app) (synchronize <$> events) w in
  returns o = true ∧ g (world_of o) = g w ∧ eng (world_of o) = eng w ∧
  submissions (calls (world_of o)) = submissions (calls w) ∧
  stops (calls (world_of o)) = stops (calls w).
Proof.
  intros Hsettled Hall. revert w Hsettled.
  induction Hall as [|pr' events [Hid Hsha] _ IH]; intros w Hsettled o; subst o.
  - by simpl.
  - simpl. unfold bind.
    destruct (settled_synchronize app pr pr' w Hid Hsha Hsettled)
      as (Hret & Hg & He & _ & Hsub & Hstop).
    destruct (updatePullRequest net app (synchronize pr') w) as [[] w1|w1];
      [|done]. simpl in *.
    assert (Hsettled1 : settled pr w1).
    { destruct Hsettled as (status & build & err & Hst & Hget & Hhash).
      exists status, build, err. unfold entryOf in *. by rewrite Hg, He. }
    destruct (IH w1 Hsettled1) as (Hret' & Hg' & He' & Hsub' & Hstop').
    split_and!;
      [ exact Hret' | exact (eq_trans Hg' Hg) | exact (eq_trans He' He)
      | exact (eq_trans Hsub' Hsub) | exact (eq_trans Hstop' Hstop) ].
Qed.

End TrackerEdges.

Section HookEdges.
Context {E : Type} `{!core.App E}.
Variable net : Remote.

(** X8. [setupHooks] only talks and logs: whatever the provider answers,
    the integration's state, the engine and the cache are as before.  When
    the repository lookup fails it asks for no hook: the lookup is its only
    call, it logs one warning and returns. *)
Theorem setupHooks_without_repository appConfig (w : World E) :
  let o := setupHooks net appConfig w in
  let cfg := config appConfig in
  g (world_of o) = g w ∧ eng (world_of o) = eng w ∧ cache (world_of o) = cache w ∧
  (∀ c err, client (g w) = Some c →
     ReposGet net c (Owner cfg) (Repo cfg) = Some err →
     returns o = true ∧
     calls (world_of o) = calls w ++ [CallReposGet (Owner cfg) (Repo cfg)] ∧
     logs (world_of o) =
       logs w ++ [(Warn, "(%s) Repository does not exist, owner=%s, repo=%s")]).
Proof.
  intros o cfg. subst o cfg. open_world w. open_handlers.
  split_and!.
  1-3: by split_run.
  intros c0 err -> Hrepo. simpl. by rewrite Hrepo.
Qed.

(** X9. The build that the tracker submits for a pull request carries its
    provenance: every submission that [updatePullRequest] adds to the trace
    is for the group named by the identifier, with the title, the URL, the
    clone URLs, the branches and the head commit of the event's payload and
    an empty base hash, and its tags read back the build type, the
    identifier, the number, and the owner, the repository and the commit
    of head and base. *)
Theorem submission_carries_provenance app action pr (w : World E) group cfg :
  CallNewBuild group cfg ∈
    drop (length (calls w))
         (calls (world_of (updatePullRequest net app (prEvent action pr) w))) →
  group = Itoa (github.ID pr) ∧
  core.Group cfg = Itoa (github.ID pr) ∧
  core.Title cfg = github.Title pr ∧
  core.URL cfg = github.HTMLURL pr ∧
  core.HeadRepo cfg = github.SSHURL (github.Repo (github.Head pr)) ∧
  core.HeadBranch cfg = github.Ref (github.Head pr) ∧
  core.HeadHash cfg = github.SHA (github.Head pr) ∧
  core.BaseRepo cfg = github.SSHURL (github.Repo (github.Base pr)) ∧
  core.BaseBranch cfg = github.Ref (github.Base pr) ∧
  core.BaseHash cfg = "" ∧
  core.GetMetadata "github:BuildType" cfg = "pullrequest" ∧
  core.GetMetadata "github:PullRequestID" cfg = Itoa (github.ID pr) ∧
  core.GetMetadata "github:PullNumber" cfg = Itoa (github.Number pr) ∧
  core.GetMetadata "github:HeadHash" cfg = github.SHA (github.Head pr) ∧
  core.GetMetadata "github:HeadOwner" cfg =
    github.Login (github.Owner (github.Repo (github.Head pr))) ∧
  core.GetMetadata "github:HeadRepo" cfg = github.Name (github.Repo (github.Head pr)) ∧
  core.GetMetadata "github:BaseHash" cfg = github.SHA (github.Base pr) ∧
  core.GetMetadata "github:BaseOwner" cfg =
    github.Login (github.Owner (github.Repo (github.Base pr))) ∧
  core.GetMetadata "github:BaseRepo" cfg = github.Name (github.Repo (github.Base pr)).
Proof.
  intros Hin.
  destruct (tracker_traces net app action pr w) as (_ & (cs & Hcs & Hall & _) & _).
  rewrite Hcs, drop_app_length in Hin.
  rewrite Forall_forall in Hall. destruct (Hall _ Hin) as [-> ->].
  split; [done|].
  unfold pullBuildConfig, core.GetMetadata, core.SetMetadata.
  cbn [core.metadata core.Group core.Title core.URL core.HeadRepo core.HeadBranch
       core.HeadHash core.BaseRepo core.BaseBranch core.BaseHash].
  split_and!; try reflexivity.
  all: rewrite ?lookup_insert_ne by (intros ?; discriminate).
  all: by rewrite lookup_insert_eq.
Qed.

End HookEdges.

(** ** The ledger over time *)

Section LedgerOverTime.
Context {E : Type} `{!core.App E}.

Lemma heldRefs_app token (cs cs' : list Call) :
  heldRefs token (cs ++ cs') = heldRefs token cs + heldRefs token cs'.
Proof.
  induction cs as [|c cs IH]; simpl; [done|].
  destruct c; rewrite ?IH; lia.
Qed.

Lemma ledger_last token (l l1 l2 : list core.Build) b tracked :
  l ++ [b] = l1 ++ tracked :: l2 →
  hasToken token l = false → core.Token tracked = token →
  l1 = l ∧ tracked = b ∧ l2 = [].
Proof.
  revert l1. induction l as [|x l IH]; intros l1 Heq Hl Ht; simpl in *.
  - destruct l1 as [|y l1]; injection Heq as -> Heq; [by subst|].
    by destruct l1.
  - destruct (String.eqb_spec (core.Token x) token) as [|Hx]; [done|].
    destruct l1 as [|y l1]; injection Heq as -> Heq; [done|].
    by destruct (IH l1 Heq Hl Ht) as (-> & -> & ->).
Qed.

Lemma trackBuild_balanced build (w : World E) :
  balanced w →
  returns (trackBuild build w) = true ∧ balanced (world_of (trackBuild build w)).
Proof.
  intros [Hok Hrefs].
  destruct (hasToken (core.Token build) (trackedBuilds (g w))) eqn:Hh.
  - rewrite (trackBuild_present _ _ Hh). by simpl.
  - rewrite (trackBuild_absent _ _ Hh). simpl. split; [done|]. split.
    + unfold ledger_ok. simpl. rewrite map_app. simpl.
      apply NoDup_app. split_and!; [done| |apply NoDup_singleton].
      intros x Hx Hx'. apply list_elem_of_singleton in Hx'. subst x.
      by apply hasToken_false in Hh.
    + intros token. simpl. rewrite heldRefs_app, hasToken_app, Hrefs. simpl.
      destruct (String.eqb_spec (core.Token build) token) as [<-|Hne].
      * rewrite Hh. simpl. lia.
      * destruct (hasToken token (trackedBuilds (g w))); simpl; lia.
Qed.

Lemma untrackBuild_balanced build (w : World E) :
  balanced w →
  returns (untrackBuild build w) = true ∧ balanced (world_of (untrackBuild build w)).
Proof.
  intros [Hok Hrefs].
  destruct (hasToken (core.Token build) (trackedBuilds (g w))) eqn:Hh.
  - destruct (untrackBuild_present _ _ Hh)
      as (l1 & tracked & l2 & Hl & Hl1 & Ht & ->).
    unfold ledger_ok in Hok. rewrite Hl in Hok.
    destruct (ledger_split _ _ _ _ Hok Ht) as [Hl2 Hnd].
    simpl. split; [done|]. split; [done|].
    intros token. simpl. rewrite heldRefs_app, Hrefs, Hl, !hasToken_app. simpl.
    rewrite Ht.
    destruct (String.eqb_spec (core.Token build) token) as [<-|Hne].
    + rewrite Hl1, Hl2. simpl. lia.
    + destruct (hasToken token l1), (hasToken token l2); simpl; lia.
  - rewrite (untrackBuild_absent _ _ Hh). by simpl.
Qed.

(** X10. The references are balanced at all times: from a ledger with one
    reference held per tracked token and none on any other (as the empty
    ledger of a new integration), every sequence of [trackBuild] and
    [untrackBuild] returns and leaves a ledger without duplicate tokens,
    with again one reference held per tracked token and none on any
    other. *)
Theorem ledger_stays_balanced (ops : list ledgerOp) (w : World E) :
  balanced w →
  returns (deliver ledgerStep ops w) = true ∧
  balanced (world_of (deliver ledgerStep ops w)).
Proof.
  revert w. induction ops as [|op ops IH]; intros w Hw; simpl; [done|].
  unfold bind.
  assert (Hstep : returns (ledgerStep op w) = true ∧ balanced (world_of (ledgerStep op w))).
  { destruct op; [by apply trackBuild_balanced|by apply untrackBuild_balanced]. }
  destruct (ledgerStep op w) as [[] w1|w1]; simpl in Hstep; [|by destruct Hstep].
  apply IH. by destruct Hstep.
Qed.

(** X11. Tracking a build whose token is not tracked and untracking it
    again restores the ledger: the tracked builds are those before, one
    reference was taken and released, on that build, and nothing else
    changed.  Tracking it twice is the same as tracking it once. *)
Theorem track_then_untrack build (w : World E) :
  hasToken (core.Token build) (trackedBuilds (g w)) = false →
  let w1 := world_of (trackBuild build w) in
  let o := untrackBuild build w1 in
  returns o = true ∧
  g (world_of o) = g w ∧
  calls (world_of o) = calls w ++ [CallRef build; CallUnref build] ∧
  eng (world_of o) = core.Unref build (core.Ref build (eng w)) ∧
  trackBuild build w1 = Ret tt w1.
Proof.
  intros Hh w1 o. subst o w1. rewrite (trackBuild_absent _ _ Hh). simpl.
  assert (Hnow : hasToken (core.Token build) (trackedBuilds (g w) ++ [build]) = true).
  { rewrite hasToken_app. simpl. by rewrite String.eqb_refl, orb_true_r. }
  split_and!; [..|by apply trackBuild_present].
  all: match goal with
       | |- context [untrackBuild ?b ?w1] =>
           destruct (untrackBuild_present b w1 Hnow)
             as (l1 & tracked & l2 & Hl & Hl1 & Ht & ->)
       end; simpl in *.
  all: destruct (ledger_last _ _ _ _ _ _ Hl Hh Ht) as (-> & -> & ->).
  all: rewrite ?app_nil_r, <- ?app_assoc; simpl; try done.
  by destruct w as [[]].
Qed.

End LedgerOverTime.

(** ** Providing, deploy keys and attaching *)

(** Unfolding the steps of a process. *)
Ltac unfold_steps :=
  unfold AttachToApp, init, setupDeployKey, acquireOauthToken, IsProvider,
    println, request, wait, getWorld, setApp, setGlobalConfig, lift, andThen,
    yield, GetCache in *;
  unfold_prims; simpl in *.

Lemma prefix_spec (p s : string) :
  String.prefix p s = true ↔ ∃ rest, s = p +:+ rest.
Proof.
  revert s. induction p as [|a p IH]; intros [|b s]; simpl.
  - split; [by exists ""|done].
  - split; [by exists (String b s)|done].
  - split; [done|by intros [rest ?]].
  - destruct (Ascii.ascii_dec a b) as [->|Hne].
    + rewrite IH. split; intros [rest Hrest]; exists rest.
      * by rewrite Hrest.
      * change (String b p +:+ rest) with (String b (p +:+ rest)) in Hrest.
        by injection Hrest.
    + split; [done|]. intros [rest Hrest].
      change (String a p +:+ rest) with (String a (p +:+ rest)) in Hrest.
      by injection Hrest.
Qed.

Section Providing.
Context {E : Type} `{!core.App E}.

(** X12. The integration provides for exactly two kinds of source: the
    empty source, and the sources that begin with ["git@github.com:"];
    asking costs one line of log and nothing else. *)
Theorem IsProvider_sources (source : string) (w : World E) :
  ∃ answer,
    IsProvider source w = Ret answer (logged Info "Asked to provide for %s" w) ∧
    (answer = true ↔
     source = "" ∨ ∃ path, source = "git@github.com:" +:+ path).
Proof.
  eexists. split; [reflexivity|].
  rewrite orb_true_iff, prefix_spec, String.eqb_eq. tauto.
Qed.

End Providing.

Section DeployKeys.
Context {E : Type} `{!core.App E}.
Variable host : Host.

(** X13. With a public key and a client, [setupDeployKey] asks once for a
    read-only deploy key titled after the application.  It returns no
    error when the provider accepts the key and when the provider answers
    that the key is already in use, and logs nothing then; any other error
    is returned as it is, after one critical line.  The integration's
    state is not changed. *)
Theorem setupDeployKey_request appConfig (p : Process E) c :
  PublicKey (config appConfig) ≠ "" →
  client (g (world p)) = Some c →
  let cfg := config appConfig in
  let answer := CreateKey host c (Owner cfg) (Repo cfg) (deployKey appConfig) in
  let failed :=
    match answer with
    | Some err => negb (Contains err "key is already in use")
    | None => false
    end in
  ∃ p',
    setupDeployKey host appConfig p = Done (if failed then answer else None) p' ∧
    requests p' =
      requests p ++ [CallCreateKey (Owner cfg) (Repo cfg) (deployKey appConfig)] ∧
    keys.ReadOnly (deployKey appConfig) = true ∧
    g (world p') = g (world p) ∧
    calls (world p') = calls (world p) ∧
    logs (world p') =
      logs (world p) ++
      (if failed then [(Crit, "Couldn't create deploy key for %s: %s")] else []) ∧
    apps p' = apps p ∧ printed p' = printed p.
Proof.
  intros Hkey Hc cfg answer failed. subst cfg answer failed.
  apply String.eqb_neq in Hkey.
  destruct p as [w ap pr rq]. open_world w. unfold deployKey in *.
  unfold_steps. rewrite Hkey, Hc. simpl.
  destruct (CreateKey host c _ _ _) as [err|]; simpl.
  - destruct (Contains err "key is already in use"); simpl;
      eexists; split_and!; try reflexivity; by rewrite ?app_nil_r.
  - eexists. split_and!; try reflexivity. by rewrite app_nil_r.
Qed.

End DeployKeys.

Section CachedToken.
Context {E : Type} `{!core.App E}.
Variable net : Remote.
Variable host : Host.
Variable oauth2State : string.


End CachedToken.

Section AttachProperties.
Context {E : Type} `{!core.App E}.
Variable net : Remote.
Variable host : Host.
Variable oauth2State : string.

Lemma printRepositories_prints repos (p : Process E) :
  printRepositories repos p =
    Done tt (mkProcess (world p) (apps p) (printed p ++ map repostr repos) (requests p)).
Proof.
  revert p. induction repos as [|repo repos IH]; intros p; simpl.
  - unfold yield. rewrite app_nil_r. by destruct p.
  - unfold andThen, println. rewrite IH. simpl. by rewrite <- app_assoc.
Qed.

(** X15. Attaching with a client installed never fails and never waits:
    [AttachToApp] returns no error, registers the application under its
    name with its decoded configuration, and registers the two listeners.
    The error of [setupDeployKey] is not looked at: also without a public
    key, when no deploy key is asked for, the repository is looked up for
    the hooks.  The integration's own settings are not read again. *)
Theorem attach_with_client name (p : Process E) c :
  client (g (world p)) = Some c →
  let appConfig := attachedApp host name in
  let cfg := config appConfig in
  ∃ p',
    AttachToApp net host oauth2State name p = Done None p' ∧
    apps p' = <[name := appConfig]> (apps p) ∧
    g (world p') = g (world p) ∧
    printed p' = printed p ∧
    requests p' =
      requests p ++ [CallAppConfig name "github"] ++
      (if String.eqb (PublicKey cfg) "" then []
       else [CallCreateKey (Owner cfg) (Repo cfg) (deployKey appConfig)]) ++
      [CallListen name SignalBuildProvisioning onBuildStarted;
       CallListen name SignalBuildComplete onBuildFinished] ∧
    calls (world p') =
      calls (world p) ++
      CallReposGet (Owner cfg) (Repo cfg) ::
      match ReposGet net c (Owner cfg) (Repo cfg) with
      | None => [CallCreateHook (Owner cfg) (Repo cfg) (theHook net appConfig)]
      | Some _ => []
      end.
Proof.
  intros Hc appConfig cfg. subst appConfig cfg.
  destruct p as [w ap pr rq]. open_world w. unfold attachedApp, deployKey.
  unfold_steps. unfold setupHooks. unfold_prims. simpl. rewrite ?Hc. simpl.
  generalize (DecodeConfig host name "github" zeroConfig). intros cfg.
  destruct (String.eqb (PublicKey _) ""); simpl.
  all: rewrite ?Hc; simpl.
  all: repeat match goal with
       | |- context [CreateKey ?h ?a ?b ?c ?d] =>
           destruct (CreateKey h a b c d) eqn:?; simpl
       | |- context [ReposGet ?h ?a ?b ?c] =>
           let Hrepo := fresh "Hrepo" in
           destruct (ReposGet h a b c) eqn:Hrepo; simpl in *; rewrite ?Hrepo; simpl
       | |- context [CreateHook ?h ?a ?b ?c ?d] =>
           destruct (CreateHook h a b c d) eqn:?; simpl
       | |- context [Contains ?a ?b] => destruct (Contains a b); simpl
       end.
  all: eexists; split; [reflexivity|]; simpl.
  all: rewrite <- ?app_assoc; simpl; by split_and!.
Qed.

(** Case analysis on the answers that decide a run of [AttachToApp]. *)
Ltac split_answers :=
  repeat match goal with
    | |- context [CreateKey ?h ?a ?b ?c ?d] =>
        destruct (CreateKey h a b c d) eqn:?; simpl
    | |- context [ReposGet ?h ?a ?b ?c] =>
        let Hrepo := fresh "Hrepo" in
        destruct (ReposGet h a b c) eqn:Hrepo; simpl in *; rewrite ?Hrepo; simpl
    | |- context [CreateHook ?h ?a ?b ?c ?d] =>
        destruct (CreateHook h a b c d) eqn:?; simpl
    | |- context [Contains ?a ?b] => destruct (Contains a b); simpl
    end.

(** X16. Attaching without a client and without OAuth credentials (the
    decoded settings lack the client id or the client secret) never
    returns: [init] prints the complaint and goes on, the application is
    registered, and the first use of the nil client (by [setupDeployKey],
    or by [setupHooks] when there is no public key) crashes the handler
    before any request to the provider and before any listener is
    registered. *)
Theorem attach_without_credentials name (p : Process E) :
  client (g (world p)) = None →
  ClientID (decodedSettings host name p) = "" ∨
  ClientSecret (decodedSettings host name p) = "" →
  ∃ p',
    AttachToApp net host oauth2State name p = Crashed p' ∧
    apps p' = <[name := attachedApp host name]> (apps p) ∧
    globalConfig (g (world p')) = decodedSettings host name p ∧
    client (g (world p')) = None ∧
    printed p' =
      printed p ++ ["Invalid github configuration, missing ClientID/ClientSecret"] ∧
    requests p' =
      requests p ++ [CallAppConfig name "github"; CallAppConfig name "github"] ∧
    calls (world p') = calls (world p).
Proof.
  intros Hc Hbad.
  assert (Hinvalid :
    String.eqb (ClientID (decodedSettings host name p)) "" ||
    String.eqb (ClientSecret (decodedSettings host name p)) "" = true).
  { apply orb_true_iff. rewrite !String.eqb_eq. exact Hbad. }
  clear Hbad. unfold decodedSettings, attachedApp in *.
  destruct p as [w ap pr rq]. open_world w.
  unfold_steps. unfold setupHooks. unfold_prims. simpl. rewrite ?Hc. simpl.
  rewrite Hinvalid. simpl.
  generalize (DecodeConfig host name "github" zeroConfig). intros cfg.
  destruct (String.eqb (PublicKey cfg) ""); simpl; rewrite ?Hc; simpl.
  all: eexists; split; [reflexivity|]; simpl.
  all: rewrite <- ?app_assoc; simpl; by split_and!.
Qed.

(** X17. Attaching without a client, with OAuth credentials and without a
    stored token waits for the authorization: [AttachToApp] prints the
    prompt with the URL for the process nonce and blocks in its first
    [Wait], before the application is registered and before anything is
    asked of the provider. *)
Theorem attach_waits_for_authorization name (p : Process E) :
  client (g (world p)) = None →
  ClientID (decodedSettings host name p) ≠ "" →
  ClientSecret (decodedSettings host name p) ≠ "" →
  GetCache "github:token" (world p) = "" →
  ∃ p',
    AttachToApp net host oauth2State name p = Blocked p' ∧
    apps p' = apps p ∧
    client (g (world p')) = None ∧
    globalConfig (g (world p')) = decodedSettings host name p ∧
    printed p' =
      printed p ++
      authorizationPrompt host oauth2State (decodedSettings host name p) ++
      ["Waiting for github authentication response..."] ∧
    requests p' = requests p ++ [CallAppConfig name "github"; CallWait] ∧
    calls (world p') = calls (world p).
Proof.
  intros Hc Hid Hsecret Htoken.
  apply String.eqb_neq in Hid. apply String.eqb_neq in Hsecret.
  unfold decodedSettings, authorizationPrompt, oauthSettings in *.
  destruct p as [w ap pr rq]. open_world w.
  unfold_steps. rewrite ?Hc. simpl. rewrite Hid, Hsecret. simpl.
  rewrite Htoken. simpl. rewrite ?Hc. simpl.
  eexists. split; [reflexivity|]. simpl.
  rewrite <- ?app_assoc. simpl. by split_and!.
Qed.

(** X18. Attaching without a client but with a stored token does not
    wait: [init] installs the client made of the decoded settings and the
    stored token, releases the waiters once, prints what it found, and
    [AttachToApp] goes on to register the application and the two
    listeners and returns no error. *)
Theorem attach_with_cached_token name (p : Process E) :
  client (g (world p)) = None →
  ClientID (decodedSettings host name p) ≠ "" →
  ClientSecret (decodedSettings host name p) ≠ "" →
  GetCache "github:token" (world p) ≠ "" →
  let c := NewClient (oauthSettings (decodedSettings host name p))
             {| oauth2.AccessToken := GetCache "github:token" (world p) |} in
  ∃ p',
    AttachToApp net host oauth2State name p = Done None p' ∧
    client (g (world p')) = Some c ∧
    apps p' = <[name := attachedApp host name]> (apps p) ∧
    broadcasts (calls (world p')) = S (broadcasts (calls (world p))) ∧
    printed p' =
      printed p ++ "Got authentication response" ::
      match ReposList host c with
      | (repos, None) => "Found repositories:" :: map repostr repos
      | (_, Some _) => []
      end ∧
    List.filter isListen (requests p') =
      List.filter isListen (requests p) ++
      [CallListen name SignalBuildProvisioning onBuildStarted;
       CallListen name SignalBuildComplete onBuildFinished].
Proof.
  intros Hc Hid Hsecret Htoken c. subst c.
  apply String.eqb_neq in Hid. apply String.eqb_neq in Hsecret.
  apply String.eqb_neq in Htoken.
  unfold decodedSettings, attachedApp, oauthSettings in *.
  destruct p as [w ap pr rq]. open_world w.
  unfold_steps. rewrite ?Hc. simpl. rewrite Hid, Hsecret. simpl.
  rewrite Htoken. simpl.
  generalize (DecodeConfig host name "github" zeroConfig). intros cfg.
  destruct (ReposList host _) as [repos [err|]] eqn:Hlist; simpl.
  2: rewrite printRepositories_prints; simpl.
  all: unfold setupHooks; unfold_prims; simpl.
  all: destruct (String.eqb (PublicKey cfg) ""); simpl.
  all: split_answers.
  all: eexists; split; [reflexivity|]; simpl.
  all: rewrite ?List.filter_app, <- ?app_assoc; simpl.
  all: split_and!; try done; by count_calls.
Qed.

End AttachProperties.

(** ** The configuration loader *)

Section LoaderProperties.
Import loader.
Variable fs : Files.

Lemma append_cons (x : Ascii.ascii) (a b : string) :
  String x a +:+ b = String x (a +:+ b).
Proof. reflexivity. Qed.

Lemma append_assoc (a b c : string) : (a +:+ b) +:+ c = a +:+ b +:+ c.
Proof.
  induction a as [|x a IH]; [done|]. by rewrite !append_cons, IH.
Qed.

Lemma stripPrefix_app (prefix rest : string) :
  stripPrefix prefix (prefix +:+ rest) = Some rest.
Proof.
  induction prefix as [|a prefix IH]; [by destruct rest|].
  rewrite append_cons. simpl. by rewrite Ascii.eqb_refl.
Qed.

Lemma stripPrefix_prefix (prefix s : string) :
  stripPrefix prefix s = None ↔ String.prefix prefix s = false.
Proof.
  revert s. induction prefix as [|a prefix IH]; intros [|b s]; simpl; try done.
  destruct (Ascii.ascii_dec a b) as [->|Hne].
  - by rewrite Ascii.eqb_refl.
  - apply Ascii.eqb_neq in Hne. by rewrite Hne.
Qed.

Lemma stripPrefix_cons (a b : Ascii.ascii) (prefix s : string) :
  stripPrefix (String a prefix) (String b s) =
  if Ascii.eqb a b then stripPrefix prefix s else None.
Proof. reflexivity. Qed.

Lemma Replace1_unfold (s old new : string) :
  Replace1 s old new =
  match stripPrefix old s with
  | Some rest => new +:+ rest
  | None =>
      match s with
      | EmptyString => EmptyString
      | String c s' => String c (Replace1 s' old new)
      end
  end.
Proof. by destruct s. Qed.

Lemma Replace1_none (s old new : string) :
  Contains s old = false → Replace1 s old new = s.
Proof.
  induction s as [|c s IH]; cbn [Contains Replace1]; intros Hno;
    apply orb_false_iff in Hno as [Hp Hs]; apply stripPrefix_prefix in Hp;
    rewrite Hp; [done|].
  by rewrite IH.
Qed.

(** X19. [expandHome] rewrites the first ["~/"] of a path, wherever it
    stands, into the home directory and a slash, and only the first: a
    path that begins with ["~/"] is moved under the home directory, a path
    with ["~/"] further in is rewritten there, and a path without ["~/"]
    is returned as it is.  So the default cache directory is
    [.cache/ngbuild/] under the home directory. *)
Theorem expandHome_first_tilde (before after : string) :
  Contains before "~/" = false →
  expandHome fs (before +:+ "~/" +:+ after) = before +:+ HOME fs +:+ "/" +:+ after ∧
  expandHome fs ("~/" +:+ after) = HOME fs +:+ "/" +:+ after ∧
  expandHome fs before = before ∧
  configDefaults fs !! "cacheDirectory" =
    Some (JString (HOME fs +:+ "/.cache/ngbuild/")).
Proof.
  intros Hno.
  assert (Hhead : ∀ rest,
    expandHome fs ("~/" +:+ rest) = HOME fs +:+ "/" +:+ rest).
  { intros rest. unfold expandHome.
    rewrite Replace1_unfold, stripPrefix_app. apply append_assoc. }
  split_and!.
  - unfold expandHome in *. induction before as [|c before IH].
    + apply Hhead.
    + cbn [Contains] in Hno. apply orb_false_iff in Hno as [Hp Hrest].
      rewrite (append_cons c before), Replace1_unfold.
      assert (Hstrip : stripPrefix "~/" (String c (before +:+ "~/" +:+ after)) = None).
      { rewrite stripPrefix_cons.
        match goal with
        | |- context [Ascii.eqb ?a c] => destruct (Ascii.eqb a c) eqn:Hc
        end; [|done].
        apply Ascii.eqb_eq in Hc. subst c.
        destruct before as [|d before]; [done|].
        rewrite (append_cons d before), stripPrefix_cons.
        match goal with
        | |- context [Ascii.eqb ?a d] => destruct (Ascii.eqb a d) eqn:Hd
        end; [|done].
        apply Ascii.eqb_eq in Hd. subst d. by destruct before; vm_compute in Hp. }
      rewrite Hstrip, (append_cons c before). by rewrite (IH Hrest).
  - apply Hhead.
  - by apply Replace1_none.
  - unfold configDefaults. rewrite lookup_insert_eq. f_equal. f_equal.
    apply (Hhead ".cache/ngbuild/").
Qed.

(** X20. What is written under ["Integrations"] for an integration is what
    [getIntegrationConfig] reads: a section stored for a name is returned
    for that name and changes nothing for any other name; without the key
    ["Integrations"], or when its value or the integration's value is not
    an object, there is no section. *)
Theorem getIntegrationConfig_round_trip (conf integrations section : config)
    (name other : string) (value : json) :
  getIntegrationConfig
    (<["Integrations" := JObject (<[name := JObject section]> integrations)]> conf)
    name = Some section ∧
  (other ≠ name →
   getIntegrationConfig
     (<["Integrations" := JObject (<[name := value]> integrations)]> conf) other =
   getIntegrationConfig (<["Integrations" := JObject integrations]> conf) other) ∧
  getIntegrationConfig (delete "Integrations" conf) name = None ∧
  ((∀ fields, value ≠ JObject fields) →
   getIntegrationConfig (<["Integrations" := value]> conf) name = None ∧
   getIntegrationConfig
     (<["Integrations" := JObject (<[name := value]> integrations)]> conf) name = None).
Proof.
  unfold getIntegrationConfig. split_and!.
  - by rewrite !lookup_insert_eq.
  - intros Hne. rewrite !lookup_insert_eq. by rewrite lookup_insert_ne.
  - by rewrite lookup_delete_eq.
  - intros Hvalue. rewrite !lookup_insert_eq.
    destruct value; try done. by destruct (Hvalue fields).
Qed.

(** X21. A configuration that was loaded once is served from the cache
    from then on: the next load of the same path returns the same
    configuration, reads no file and leaves the cache as it is, whatever
    the files hold by then. *)
Theorem loaded_config_is_cached (later : Files) (path : string)
    (st st1 : State) (conf : config) :
  loadConfig fs path st = Returned (inl conf) st1 →
  configCache st1 !! path = Some conf ∧
  ∃ st2, loadConfig later path st1 = Returned (inl conf) st2 ∧
         configCache st2 = configCache st1 ∧ reads st2 = reads st1.
Proof.
  unfold loadConfig. intros Hload.
  assert (Hcached : configCache st1 !! path = Some conf).
  { destruct (configCache st !! path) as [c|] eqn:Hc.
    - by simplify_eq/=.
    - destruct (ReadFile fs _) as [raw|]; [|done].
      destruct (Unmarshal fs raw) as [[]|]; simplify_eq/=.
      by rewrite lookup_insert_eq. }
  split; [done|]. rewrite Hcached. by eexists.
Qed.

(** X22. What a load does to the cache: a configuration that is returned
    is in the cache under its path afterwards and no other entry changes;
    a load that returns an error or panics found no entry for the path,
    tried exactly one file and leaves the cache as it was, so the next
    load of that path reads again. *)
Theorem loadConfig_cache (path : string) (st : State) :
  match loadConfig fs path st with
  | Returned (inl conf) st1 =>
      configCache st1 = <[path := conf]> (configCache st)
  | Returned (inr _) st1 | Panicked st1 =>
      configCache st !! path = None ∧
      configCache st1 = configCache st ∧
      ∃ file, reads st1 = reads st ++ [file]
  end.
Proof.
  unfold loadConfig.
  destruct (configCache st !! path) as [c|] eqn:Hc; simpl.
  - by rewrite insert_id.
  - destruct (ReadFile fs _) as [raw|]; [|by eauto].
    destruct (Unmarshal fs raw) as [[]|]; simpl; eauto.
Qed.

(** X23. A file that holds well-formed JSON which is not an object (null,
    a number, a string, an array) makes [loadConfig] panic instead of
    returning an error: the type assertion on the decoded value is not
    checked. *)
Theorem loadConfig_panics_on_non_object (path : string) (st : State)
    (raw : string) (value : json) :
  configBaseDir st ≠ "" →
  configCache st !! path = None →
  ReadFile fs (Join fs [configBaseDir st; path]) = inl raw →
  Unmarshal fs raw = inl value →
  (∀ fields, value ≠ JObject fields) →
  ∃ st1, loadConfig fs path st = Panicked st1 ∧
         configCache st1 = configCache st.
Proof.
  intros Hbase Hc Hread Hjson Hvalue. unfold loadConfig.
  apply String.eqb_neq in Hbase. rewrite Hbase, Hc, Hread, Hjson.
  destruct value; try by eexists. by destruct (Hvalue fields).
Qed.

Section Layers.
Context {S : Type}.
Variable Decode : config → S → S * option error.

(** X24. [applyIntegrationConfig] applies the master file's section first
    and the app's section on top of it, so what the app sets overrides
    the master file; when the master section decodes with an error the
    app's file is not loaded; for the empty app name only the master file
    counts; and when the app's file cannot be loaded the error is
    returned with the master section already written to the struct. *)
Theorem integration_config_layers (appname name : string) (s : S)
    (st st1 : State) (master : config) :
  loadMasterConfig fs st = Returned (inl master) st1 →
  match applySection Decode master name s with
  | (s1, Some err) =>
      applyIntegrationConfig fs Decode appname name s st =
      Returned (s1, Some err) st1
  | (s1, None) =>
      (appname = "" →
       applyIntegrationConfig fs Decode appname name s st =
       Returned (s1, None) st1) ∧
      (appname ≠ "" →
       match loadAppConfig fs appname st1 with
       | Returned (inl appconfig) st2 =>
           applyIntegrationConfig fs Decode appname name s st =
           Returned (applySection Decode appconfig name s1) st2
       | Returned (inr err) st2 =>
           applyIntegrationConfig fs Decode appname name s st =
           Returned (s1, Some err) st2
       | Panicked st2 =>
           applyIntegrationConfig fs Decode appname name s st = Panicked st2
       end)
  end.
Proof.
  intros Hmaster. unfold applyIntegrationConfig, applySection, seq.
  rewrite Hmaster.
  destruct (match getIntegrationConfig master name with
            | Some section => Decode section s
            | None => (s, None)
            end) as [s1 [err|]]; [done|].
  split.
  - by intros ->.
  - intros Hne. apply String.eqb_neq in Hne. rewrite Hne. simpl.
    destruct (loadAppConfig fs appname st1) as [[appconfig|err] st2|st2];
      try done.
    by destruct (getIntegrationConfig appconfig name).
Qed.

(** X25. [applyConfig] decodes the defaults, then the master file, then
    the app's file: a later layer overrides an earlier one.  When the
    defaults do not decode no file is read; when every layer decodes, the
    struct is the app's file applied to the master file applied to the
    defaults. *)
Theorem config_layers (appname : string) (s : S) (st : State) :
  match Decode (configDefaults fs) s with
  | (s0, Some err) =>
      applyConfig fs Decode appname s st = Returned (s0, Some err) st
  | (s0, None) =>
      ∀ master st1,
        loadMasterConfig fs st = Returned (inl master) st1 →
        match Decode master s0 with
        | (s1, Some err) =>
            applyConfig fs Decode appname s st = Returned (s1, Some err) st1
        | (s1, None) =>
            (appname = "" →
             applyConfig fs Decode appname s st = Returned (s1, None) st1) ∧
            ∀ appconfig st2,
              appname ≠ "" →
              loadAppConfig fs appname st1 = Returned (inl appconfig) st2 →
              applyConfig fs Decode appname s st =
              Returned (Decode appconfig s1) st2
        end
  end.
Proof.
  unfold applyConfig, seq.
  destruct (Decode (configDefaults fs) s) as [s0 [err|]]; [done|].
  intros master st1 Hmaster. rewrite Hmaster.
  destruct (Decode master s0) as [s1 [err|]]; [done|].
  split.
  - by intros ->.
  - intros appconfig st2 Hne Happ. apply String.eqb_neq in Hne.
    rewrite Hne. simpl. by rewrite Happ.
Qed.

End Layers.
End LoaderProperties.

(** ** The further properties at the scenario *)

Lemma other_pull_requests_untouched_witness :
  github.ID Scenario.pull_release ≠ github.ID Scenario.pull_abc ∧
  entryOf Scenario.pull_release
    (world_of (trackPullRequest Scenario.github_ok (Scenario.ngbuild true false)
                 (prEvent "opened" Scenario.pull_abc)
                 (Scenario.tracking Scenario.pull_release false))) =
  Some (Scenario.building Scenario.pull_release).
Proof.
  assert (Hne : github.ID Scenario.pull_release ≠ github.ID Scenario.pull_abc).
  { vm_compute. discriminate. }
  split; [exact Hne|].
  destruct (other_pull_requests_untouched Scenario.github_ok
              (Scenario.ngbuild true false) "opened" Scenario.pull_abc
              Scenario.pull_release
              (Scenario.tracking Scenario.pull_release false) Hne)
    as (Htrack & _).
  rewrite Htrack. vm_compute. reflexivity.
Defined.

Lemma synchronize_keeps_snapshot_witness :
  entryOf Scenario.pull_def (Scenario.tracking Scenario.pull_abc false) =
    Some (Scenario.building Scenario.pull_abc) ∧
  ∃ token,
    entryOf Scenario.pull_def
      (world_of (updatePullRequest Scenario.github_ok
                   (Scenario.ngbuild true false)
                   (prEvent "synchronize" Scenario.pull_def)
                   (Scenario.tracking Scenario.pull_abc false))) =
    Some {| pull := Scenario.pull_abc; currentBuild := token;
            mergeOnPass := false |}.
Proof.
  assert (Hentry : entryOf Scenario.pull_def
                     (Scenario.tracking Scenario.pull_abc false) =
                   Some (Scenario.building Scenario.pull_abc)).
  { vm_compute. reflexivity. }
  split; [exact Hentry|].
  destruct (synchronize_keeps_snapshot Scenario.github_ok
              (Scenario.ngbuild true false) "synchronize" Scenario.pull_def
              (Scenario.tracking Scenario.pull_abc false) _ Hentry)
    as ((token & Hafter & _) & _).
  exists token. exact Hafter.
Defined.

Lemma open_then_close_restores_tracker_witness :
  entryOf Scenario.pull_abc (Scenario.world ∅ [] RefEngine.empty) = None ∧
  trackedPullRequests
    (g (world_of
          (closedPullRequest (Scenario.ngbuild true false)
             (prEvent "closed" Scenario.pull_abc)
             (world_of (trackPullRequest Scenario.github_ok
                          (Scenario.ngbuild true false)
                          (prEvent "opened" Scenario.pull_abc)
                          (Scenario.world ∅ [] RefEngine.empty)))))) = ∅.
Proof.
  assert (Hnone : entryOf Scenario.pull_abc
                    (Scenario.world ∅ [] RefEngine.empty) = None).
  { vm_compute. reflexivity. }
  split; [exact Hnone|].
  destruct (open_then_close_restores_tracker Scenario.github_ok
              (Scenario.ngbuild true false) Scenario.pull_abc
              (Scenario.world ∅ [] RefEngine.empty) Hnone)
    as [_ Hmap].
  exact Hmap.
Defined.

Lemma no_client_no_tracking_witness :
  client (g Scenario.unauthenticated) = None ∧
  trackPullRequest Scenario.github_ok (Scenario.ngbuild true false)
    (prEvent "opened" Scenario.pull_abc) Scenario.unauthenticated =
  Panic Scenario.unauthenticated.
Proof.
  split; [reflexivity|].
  destruct (no_client_no_tracking Scenario.github_ok
              (Scenario.ngbuild true false) "opened" Scenario.pull_abc
              Scenario.unauthenticated eq_refl)
    as (Htrack & _).
  exact Htrack.
Defined.

Lemma duplicates_never_build_witness :
  settled Scenario.pull_abc (Scenario.tracking Scenario.pull_abc false) ∧
  submissions
    (calls (world_of
       (deliver (updatePullRequest Scenario.github_ok
                   (Scenario.ngbuild true false))
          (synchronize <$>
             [Scenario.pull_abc; Scenario.pull_abc; Scenario.pull_abc])
          (Scenario.tracking Scenario.pull_abc false)))) = 0%nat.
Proof.
  assert (Hsettled : settled Scenario.pull_abc
                       (Scenario.tracking Scenario.pull_abc false)).
  { exists (Scenario.building Scenario.pull_abc),
      (Scenario.firstBuild Scenario.pull_abc), None.
    split_and!; vm_compute; reflexivity. }
  split; [exact Hsettled|].
  destruct (duplicates_never_build Scenario.github_ok
              (Scenario.ngbuild true false) Scenario.pull_abc
              [Scenario.pull_abc; Scenario.pull_abc; Scenario.pull_abc]
              (Scenario.tracking Scenario.pull_abc false) Hsettled)
    as (_ & _ & _ & Hsub & _).
  { repeat constructor. }
  exact Hsub.
Defined.

Lemma submission_carries_provenance_witness :
  CallNewBuild "99002" (pullBuildConfig Scenario.pull_abc) ∈
    drop (length (calls (Scenario.world ∅ [] RefEngine.empty)))
      (calls (world_of (updatePullRequest Scenario.github_ok
                          (Scenario.ngbuild true false)
                          (prEvent "synchronize" Scenario.pull_abc)
                          (Scenario.world ∅ [] RefEngine.empty)))) ∧
  core.GetMetadata "github:PullNumber" (pullBuildConfig Scenario.pull_abc) =
    Itoa 42.
Proof.
  assert (Hin : CallNewBuild "99002" (pullBuildConfig Scenario.pull_abc) ∈
    drop (length (calls (Scenario.world ∅ [] RefEngine.empty)))
      (calls (world_of (updatePullRequest Scenario.github_ok
                          (Scenario.ngbuild true false)
                          (prEvent "synchronize" Scenario.pull_abc)
                          (Scenario.world ∅ [] RefEngine.empty))))).
  { vm_compute. repeat constructor. }
  split; [exact Hin|].
  destruct (submission_carries_provenance Scenario.github_ok
              (Scenario.ngbuild true false) "synchronize" Scenario.pull_abc
              (Scenario.world ∅ [] RefEngine.empty) _ _ Hin)
    as (_ & _ & _ & _ & _ & _ & _ & _ & _ & _ & _ & _ & Hnumber & _).
  exact Hnumber.
Defined.

Lemma ledger_stays_balanced_witness :
  balanced (Scenario.world ∅ [] RefEngine.empty) ∧
  balanced
    (world_of
       (deliver ledgerStep
          [Track (Scenario.firstBuild Scenario.pull_abc);
           Track (Scenario.firstBuild Scenario.pull_abc);
           Track (Scenario.firstBuild Scenario.pull_release);
           Untrack (Scenario.firstBuild Scenario.pull_abc);
           Untrack (Scenario.firstBuild Scenario.pull_abc)]
          (Scenario.world ∅ [] RefEngine.empty))).
Proof.
  assert (Hstart : balanced (Scenario.world ∅ [] RefEngine.empty)).
  { split; [apply NoDup_nil_2|]. intros token. reflexivity. }
  split; [exact Hstart|].
  destruct (ledger_stays_balanced
              [Track (Scenario.firstBuild Scenario.pull_abc);
               Track (Scenario.firstBuild Scenario.pull_abc);
               Track (Scenario.firstBuild Scenario.pull_release);
               Untrack (Scenario.firstBuild Scenario.pull_abc);
               Untrack (Scenario.firstBuild Scenario.pull_abc)]
              (Scenario.world ∅ [] RefEngine.empty) Hstart)
    as [_ Hend].
  exact Hend.
Defined.

Lemma track_then_untrack_witness :
  hasToken (core.Token (Scenario.firstBuild Scenario.pull_abc))
    (trackedBuilds (g (Scenario.world ∅ [] RefEngine.empty))) = false ∧
  g (world_of
       (untrackBuild (Scenario.firstBuild Scenario.pull_abc)
          (world_of (trackBuild (Scenario.firstBuild Scenario.pull_abc)
                       (Scenario.world ∅ [] RefEngine.empty))))) =
  g (Scenario.world ∅ [] RefEngine.empty).
Proof.
  split; [reflexivity|].
  destruct (track_then_untrack (Scenario.firstBuild Scenario.pull_abc)
              (Scenario.world ∅ [] RefEngine.empty) eq_refl)
    as (_ & Hg & _).
  exact Hg.
Defined.

Lemma setupDeployKey_request_witness :
  PublicKey (config (Scenario.ngbuild true false)) ≠ "" ∧
  ∃ p',
    setupDeployKey
      (Startup.host (Scenario.settings true false)
         (Some "422 Validation Failed: key is already in use"))
      (Scenario.ngbuild true false)
      (Startup.process (Scenario.world ∅ [] RefEngine.empty)) =
    Done None p' ∧
    requests p' =
      [CallCreateKey "watchly" "ngbuild" (deployKey (Scenario.ngbuild true false))] ∧
    logs (world p') = [].
Proof.
  assert (Hkey : PublicKey (config (Scenario.ngbuild true false)) ≠ "").
  { vm_compute. discriminate. }
  split; [exact Hkey|].
  destruct (setupDeployKey_request
              (Startup.host (Scenario.settings true false)
                 (Some "422 Validation Failed: key is already in use"))
              (Scenario.ngbuild true false)
              (Startup.process (Scenario.world ∅ [] RefEngine.empty))
              Scenario.apiClient Hkey eq_refl)
    as (p' & Hrun & Hreq & _ & _ & _ & Hlogs & _).
  exists p'. split; [exact Hrun|]. split; [exact Hreq|exact Hlogs].
Defined.


Lemma attach_with_client_witness :
  client (g (world (Startup.process (Scenario.world ∅ [] RefEngine.empty)))) =
    Some Scenario.apiClient ∧
  ∃ p',
    AttachToApp Scenario.github_ok Startup.ci Scenario.nonce "ngbuild"
      (Startup.process (Scenario.world ∅ [] RefEngine.empty)) = Done None p' ∧
    apps p' = {[ "ngbuild" := attachedApp Startup.ci "ngbuild" ]} ∧
    printed p' = [].
Proof.
  split; [reflexivity|].
  destruct (attach_with_client Scenario.github_ok Startup.ci Scenario.nonce
              "ngbuild"
              (Startup.process (Scenario.world ∅ [] RefEngine.empty))
              Scenario.apiClient eq_refl)
    as (p' & Hrun & Happs & _ & Hprinted & _).
  exists p'. split; [exact Hrun|]. split; [exact Happs|exact Hprinted].
Defined.

Lemma attach_without_credentials_witness :
  ClientID (decodedSettings (Startup.host zeroConfig None) "ngbuild"
              (Startup.process Scenario.unauthenticated)) = "" ∧
  ∃ p',
    AttachToApp Scenario.github_ok (Startup.host zeroConfig None)
      Scenario.nonce "ngbuild"
      (Startup.process Scenario.unauthenticated) = Crashed p' ∧
    printed p' =
      ["Invalid github configuration, missing ClientID/ClientSecret"] ∧
    calls (world p') = [].
Proof.
  split; [reflexivity|].
  destruct (attach_without_credentials Scenario.github_ok
              (Startup.host zeroConfig None) Scenario.nonce "ngbuild"
              (Startup.process Scenario.unauthenticated) eq_refl
              (or_introl eq_refl))
    as (p' & Hrun & _ & _ & _ & Hprinted & _ & Hcalls).
  exists p'. split; [exact Hrun|]. split; [exact Hprinted|exact Hcalls].
Defined.

Lemma attach_waits_for_authorization_witness :
  GetCache "github:token" (world (Startup.process Scenario.unauthenticated)) = "" ∧
  ∃ p',
    AttachToApp Scenario.github_ok Startup.ci Scenario.nonce "ngbuild"
      (Startup.process Scenario.unauthenticated) = Blocked p' ∧
    apps p' = ∅ ∧
    requests p' = [CallAppConfig "ngbuild" "github"; CallWait].
Proof.
  split; [reflexivity|].
  destruct (attach_waits_for_authorization Scenario.github_ok Startup.ci
              Scenario.nonce "ngbuild"
              (Startup.process Scenario.unauthenticated) eq_refl)
    as (p' & Hrun & Happs & _ & _ & _ & Hreq & _).
  { vm_compute. discriminate. }
  { vm_compute. discriminate. }
  { reflexivity. }
  exists p'. split; [exact Hrun|]. split; [exact Happs|exact Hreq].
Defined.

Lemma attach_with_cached_token_witness :
  GetCache "github:token" (world (Startup.process Startup.restarted)) ≠ "" ∧
  ∃ p',
    AttachToApp Scenario.github_ok Startup.ci Scenario.nonce "ngbuild"
      (Startup.process Startup.restarted) = Done None p' ∧
    client (g (world p')) = Some Scenario.apiClient ∧
    printed p' =
      ["Got authentication response"; "Found repositories:";
       "watchly/ngbuild 🔒"].
Proof.
  assert (Htoken : GetCache "github:token"
                     (world (Startup.process Startup.restarted)) ≠ "").
  { vm_compute. discriminate. }
  split; [exact Htoken|].
  destruct (attach_with_cached_token Scenario.github_ok Startup.ci
              Scenario.nonce "ngbuild" (Startup.process Startup.restarted)
              eq_refl)
    as (p' & Hrun & Hclient & _ & _ & Hprinted & _).
  { vm_compute. discriminate. }
  { vm_compute. discriminate. }
  { exact Htoken. }
  exists p'. split; [exact Hrun|]. split; [exact Hclient|exact Hprinted].
Defined.

Lemma expandHome_first_tilde_witness :
  Contains "/srv/" "~/" = false ∧
  loader.expandHome Disk.files "/srv/~/builds" = "/srv//home/ci/builds" ∧
  loader.expandHome Disk.files "~/a/~/b" = "/home/ci/a/~/b".
Proof.
  split; [reflexivity|].
  destruct (expandHome_first_tilde Disk.files "/srv/" "builds" eq_refl)
    as (Hinner & _).
  destruct (expandHome_first_tilde Disk.files "" "a/~/b" eq_refl)
    as (_ & Hhead & _).
  split; [exact Hinner|exact Hhead].
Defined.

Lemma loaded_config_is_cached_witness :
  (∃ st1, loader.loadConfig Disk.files "ngbuild.json" Disk.fresh =
          loader.Returned (inl Disk.master) st1) ∧
  ∃ st2,
    loader.loadConfig Disk.wiped "ngbuild.json"
      (loader.state_of (loader.loadConfig Disk.files "ngbuild.json" Disk.fresh)) =
    loader.Returned (inl Disk.master) st2 ∧
    loader.reads st2 = ["/etc/ngbuild/ngbuild.json"].
Proof.
  assert (Hload : loader.loadConfig Disk.files "ngbuild.json" Disk.fresh =
    loader.Returned (inl Disk.master)
      (loader.state_of (loader.loadConfig Disk.files "ngbuild.json" Disk.fresh))).
  { vm_compute. reflexivity. }
  split; [eexists; exact Hload|].
  destruct (loaded_config_is_cached Disk.files Disk.wiped "ngbuild.json"
              Disk.fresh _ Disk.master Hload)
    as (_ & st2 & Hagain & _ & Hreads).
  exists st2. split; [exact Hagain|].
  rewrite Hreads. vm_compute. reflexivity.
Defined.

Lemma loadConfig_panics_on_non_object_witness :
  loader.ReadFile Disk.files
    (loader.Join Disk.files ["/etc/ngbuild"; "apps/broken/config.json"]) =
    inl "[]" ∧
  loader.Unmarshal Disk.files "[]" = inl (JArray []) ∧
  ∃ st1,
    loader.loadConfig Disk.files "apps/broken/config.json"
      (loader.mkState "/etc/ngbuild" ∅ []) = loader.Panicked st1.
Proof.
  split; [reflexivity|]. split; [reflexivity|].
  destruct (loadConfig_panics_on_non_object Disk.files
              "apps/broken/config.json" (loader.mkState "/etc/ngbuild" ∅ [])
              "[]" (JArray []))
    as (st1 & Hpanic & _).
  { vm_compute. discriminate. }
  { reflexivity. }
  { reflexivity. }
  { reflexivity. }
  { intros fields. discriminate. }
  exists st1. exact Hpanic.
Defined.

Lemma integration_config_layers_witness :
  (∃ st1, loader.loadMasterConfig Disk.files Disk.fresh =
          loader.Returned (inl Disk.master) st1) ∧
  ∃ s st2,
    loader.applyIntegrationConfig Disk.files Disk.Decode "web" "github" ∅
      Disk.fresh = loader.Returned (s, None) st2 ∧
    s !! "owner" = Some (JString "watchly") ∧
    s !! "repo" = Some (JString "web").
Proof.
  assert (Hmaster : loader.loadMasterConfig Disk.files Disk.fresh =
    loader.Returned (inl Disk.master)
      (loader.state_of (loader.loadMasterConfig Disk.files Disk.fresh))).
  { vm_compute. reflexivity. }
  split; [eexists; exact Hmaster|].
  assert (Hlayers := integration_config_layers Disk.files Disk.Decode
                       "web" "github" ∅ Disk.fresh _ Disk.master Hmaster).
  assert (Hsection : applySection Disk.Decode Disk.master "github" ∅ =
    ({[ "owner" := JString "watchly"; "repo" := JString "ngbuild" ]}, None)).
  { vm_compute. reflexivity. }
  rewrite Hsection in Hlayers. destruct Hlayers as [_ Happ].
  assert (Hweb : loader.loadAppConfig Disk.files "web"
                   (loader.state_of
                      (loader.loadMasterConfig Disk.files Disk.fresh)) =
    loader.Returned (inl Disk.web)
      (loader.state_of
         (loader.loadAppConfig Disk.files "web"
            (loader.state_of
               (loader.loadMasterConfig Disk.files Disk.fresh))))).
  { vm_compute. reflexivity. }
  assert (Hname : "web" ≠ "") by discriminate.
  specialize (Happ Hname). rewrite Hweb in Happ.
  eexists _, _. split; [exact Happ|]. split; vm_compute; reflexivity.
Defined.
